(** * Taxi-demand notebooks: the data-reshaping helpers

    A shallow embedding of the helper functions defined in the notebooks of
    the repository (the batch fetch of raw rides, the rolling-average
    feature, the hour / day-of-week extractor) and of the cells that
    evaluate a model and log it, together with the properties stated about
    them.

    Data model.
    - A pandas [Series] is the list of its cells; a cell is the rational
      number it denotes.  Ride counts are integers, a [datetime64[ns]] cell
      is held as its count of nanoseconds since 1970-01-01 (the integer
      pandas stores), an average is a float64, rounded as float64
      arithmetic rounds.  Missing values (NaN, NaT) and infinities are not
      modelled: the frames of these notebooks are complete.
    - A [DataFrame] maps a column label to its series (labels are unique,
      as in the parquet files the frames are read from; the position of a
      column is not modelled).
    - DataFrames are Python objects: they live in a store and are passed by
      reference, so that mutation in place and copying can be told apart. *)

From Stdlib Require Import ZArith QArith Qround Qabs Lia List Sorted Permutation.
From stdpp Require Import gmap strings list fin_maps pretty.

Set Default Proof Using "Type".

(** ** Python outcomes and the store of DataFrame objects *)

Inductive exn : Type :=
  | ValueError (msg : string)
  | KeyError (key : string).

Inductive outcome (A : Type) : Type :=
  | Return (a : A)
  | Raise (e : exn)
  | Stuck.
Arguments Return {A} a.
Arguments Raise {A} e.
Arguments Stuck {A}.

Abbreviation Series := (list Q).
Abbreviation DataFrame := (gmap string (list Q)).
Abbreviation loc := positive.
Abbreviation heap := (gmap positive (gmap string (list Q))).

(** A computation reads and writes the store; the store survives a raised
    exception, as Python objects do.  [Stuck] is the use of a reference
    that names no object, which no Python program can do. *)
Definition M (A : Type) : Type := heap → outcome A * heap.

Definition ret {A} (a : A) : M A := λ h, (Return a, h).
Definition raise {A} (e : exn) : M A := λ h, (Raise e, h).
Definition stuck {A} : M A := λ h, (Stuck, h).
Definition bind {A B} (m : M A) (f : A → M B) : M B :=
  λ h, match m h with
       | (Return a, h') => f a h'
       | (Raise e, h') => (Raise e, h')
       | (Stuck, h') => (Stuck, h')
       end.

Declare Scope py_scope.
Delimit Scope py_scope with py.
Notation "'let*' x ':=' m 'in' k" := (bind m (λ x, k))
  (at level 10, x binder, m at level 100, k at level 200) : py_scope.
Local Open Scope py_scope.

(** ** float64 arithmetic

    A finite float64 is the rational it denotes.  [round] is the rounding
    every float64 operation ends with: to the nearest number with a
    53-bit significand, ties to the even one, with the fixed quantum
    2^-1074 below 2^-1022.  Infinities are not modelled: the result for a
    number beyond the float64 range is not the one numpy gives. *)

Module float64.
Local Open Scope Z_scope.

Definition BIAS : Z := 1100.

(** The exponent [e] with 2^e <= |x| < 2^(e+1), found on |x| * 2^BIAS. *)
Definition binade (x : Q) : Z :=
  Z.log2 (Z.abs (Qnum x) * 2 ^ BIAS / QDen x) - BIAS.

(** The integer nearest to [n / d], the even one on a tie. *)
Definition nearest_even (n d : Z) : Z :=
  let q := n / d in
  let r := n mod d in
  if 2 * r <? d then q
  else if d <? 2 * r then q + 1
  else if Z.even q then q else q + 1.

Definition round (x : Q) : Q :=
  let e := Z.max (binade x) (-1022) in
  let s := 52 - e in
  let m := nearest_even (Qnum x * 2 ^ (s + BIAS)) (QDen x * 2 ^ BIAS) in
  Qred (m * 2 ^ BIAS # Z.to_pos (2 ^ (s + BIAS))).

End float64.

(** ** The pandas operations the helpers use *)

Module pd.

(** Dereference [X]. *)
Definition frame (X : loc) : M DataFrame :=
  λ h, match h !! X with
       | Some df => (Return df, h)
       | None => (Stuck, h)
       end.

(** [col in X.columns] *)
Definition has_column (X : loc) (col : string) : M bool :=
  let* df := frame X in ret (bool_decide (is_Some (df !! col))).

(** [X[col]]: [KeyError] when the label is absent. *)
Definition getitem (X : loc) (col : string) : M Series :=
  let* df := frame X in
  match df !! col with
  | Some s => ret s
  | None => raise (KeyError col)
  end.

(** [X[cols]] for a list of labels: the selected columns, in the order
    asked for; [KeyError] on the first absent label. *)
Fixpoint getitems (X : loc) (cols : list string) : M (list Series) :=
  match cols with
  | [] => ret []
  | c :: cs => let* s := getitem X c in let* ss := getitems X cs in ret (s :: ss)
  end.

(** [X[col] = s]: assignment in place, adding or overwriting the column. *)
Definition setitem (X : loc) (col : string) (s : Series) : M unit :=
  λ h, match h !! X with
       | Some df => (Return (), <[X := <[col := s]> df]> h)
       | None => (Stuck, h)
       end.

(** A new object holding [df]. *)
Definition new (df : DataFrame) : M loc :=
  λ h, let l := fresh (dom h) in (Return l, <[l := df]> h).

(** [X.copy()] *)
Definition copy (X : loc) : M loc :=
  let* df := frame X in new df.

(** [repr] of a list of labels, as Python writes it. *)
Definition labels_repr (labels : list string) : string :=
  "[" +:+ String.concat ", " (map (λ l, "'" +:+ l +:+ "'") labels) +:+ "]".

(** [X.drop(columns=cols)]: a new frame without these columns.  The labels
    are looked up first; when some are absent the call raises [KeyError]
    with the list of the absent ones and drops nothing. *)
Definition drop_columns (cols : list string) (df : DataFrame) : exn + DataFrame :=
  match List.filter (λ c, negb (bool_decide (is_Some (df !! c)))) cols with
  | [] => inr (foldl (λ d c, delete c d) df cols)
  | missing => inl (KeyError (labels_repr missing +:+ " not found in axis"))
  end.

Definition drop (X : loc) (cols : list string) : M loc :=
  let* df := frame X in
  match drop_columns cols df with
  | inr df' => new df'
  | inl e => raise e
  end.

(** Rows of a selection of columns: row [i] lists cell [i] of each. *)
Fixpoint rows (cols : list Series) : list (list Q) :=
  match cols with
  | [] => []
  | [c] => map (λ x, [x]) c
  | c :: cs => zip_with cons c (rows cs)
  end.

(** The float64 sum of a row, cell after cell from the left; a cell that
    is not a float64 yet (an integer) is converted first. *)
Definition sum (xs : list Q) : Q :=
  foldl (λ acc x, float64.round (acc + float64.round x)%Q) 0%Q xs.

(** The mean of a row as [.mean] computes it: the float64 sum divided by
    the number of cells. *)
Definition mean (xs : list Q) : Q :=
  float64.round (sum xs / inject_Z (Z.of_nat (length xs)))%Q.

(** [.mean(axis=1)] *)
Definition mean_axis1 (cols : list Series) : Series := map mean (rows cols).

End pd.

(** ** The rolling-average feature (hyper-parameter notebook) *)

Definition last_4_weeks_columns : list string :=
  [ "rides_t-" +:+ pretty (7 * 24)%N;
    "rides_t-" +:+ pretty (14 * 24)%N;
    "rides_t-" +:+ pretty (21 * 24)%N;
    "rides_t-" +:+ pretty (28 * 24)%N ].

(** The loop that checks the required columns. *)
Fixpoint require_columns (X : loc) (cols : list string) : M unit :=
  match cols with
  | [] => ret ()
  | col :: rest =>
      let* present := pd.has_column X col in
      if present then require_columns X rest
      else raise (ValueError ("Missing required column: " +:+ col))
  end.

Definition average_rides_last_4_weeks (X : loc) : M loc :=
  let* _ := require_columns X last_4_weeks_columns in
  let* sel := pd.getitems X last_4_weeks_columns in
  let* _ := pd.setitem X "average_rides_last_4_weeks" (pd.mean_axis1 sel) in
  ret X.


(** ** Timestamps

    A timestamp is its count of nanoseconds since 1970-01-01T00:00, on a
    naive wall clock: the notebook strips the time zone before it compares
    ([replace(tzinfo=None)], [tz_localize(None)]).  The calendar is the
    proleptic Gregorian one of [datetime]; its range limits (years 1 to
    9999) are not modelled. *)

Module datetime.
Local Open Scope Z_scope.

Definition NS_PER_HOUR : Z := 3600 * 1000000000.
Definition NS_PER_DAY : Z := 24 * NS_PER_HOUR.

(** [timedelta(weeks=w)], [timedelta(days=d)] *)
Definition timedelta_days (d : Z) : Z := d * NS_PER_DAY.
Definition timedelta_weeks (w : Z) : Z := timedelta_days (7 * w).

(** Days since 1970-01-01 (floor). *)
Definition days (t : Z) : Z := t / NS_PER_DAY.

(** [.hour]: 0 to 23. *)
Definition hour (t : Z) : Z := (t / NS_PER_HOUR) mod 24.

(** [.dayofweek]: Monday is 0, Sunday is 6; 1970-01-01 was a Thursday. *)
Definition dayofweek (t : Z) : Z := (days t + 3) mod 7.

(** Civil date of a day number: years are counted from 1 March within a
    400-year era of 146097 days, which puts the leap day last. *)
Definition civil (d : Z) : Z * Z * Z :=
  let z := d + 719468 in
  let era := z / 146097 in
  let doe := z - era * 146097 in
  let yoe := (doe - doe / 1460 + doe / 36524 - doe / 146096) / 365 in
  let doy := doe - (365 * yoe + yoe / 4 - yoe / 100) in
  let mp := (5 * doy + 2) / 153 in
  let dd := doy - (153 * mp + 2) / 5 + 1 in
  let m := if mp <? 10 then mp + 3 else mp - 9 in
  let y := yoe + era * 400 + (if m <=? 2 then 1 else 0) in
  (y, m, dd).

Definition year (t : Z) : Z := (civil (days t)).1.1.
Definition month (t : Z) : Z := (civil (days t)).1.2.
Definition day (t : Z) : Z := (civil (days t)).2.

(** Day number of a civil date, and the timestamp of a wall-clock time:
    used to write dates down, not by the notebooks. *)
Definition days_from_civil (y m d : Z) : Z :=
  let y' := if m <=? 2 then y - 1 else y in
  let era := y' / 400 in
  let yoe := y' - era * 400 in
  let mp := if m <=? 2 then m + 9 else m - 3 in
  let doy := (153 * mp + 2) / 5 + d - 1 in
  let doe := yoe * 365 + yoe / 4 - yoe / 100 + doy in
  era * 146097 + doe - 719468.

Definition make (y m d hh : Z) : Z :=
  days_from_civil y m d * NS_PER_DAY + hh * NS_PER_HOUR.

End datetime.

(** ** The hour / day-of-week extractor (hyper-parameter notebook) *)

Module dt.
(** The [.dt] accessor of a datetime column, cell by cell. *)
Definition hour (s : Series) : Series :=
  map (λ q, inject_Z (datetime.hour (Qfloor q))) s.
Definition dayofweek (s : Series) : Series :=
  map (λ q, inject_Z (datetime.dayofweek (Qfloor q))) s.
End dt.

Module TemporalFeatureEngineer.

(** The estimator has no attribute of its own. *)
Definition t : Type := unit.

Definition fit (self : t) (X : loc) : M t := ret self.

Definition transform (self : t) (X : loc) : M loc :=
  let* X_ := pd.copy X in
  let* pickup_hour := pd.getitem X_ "pickup_hour" in
  let* _ := pd.setitem X_ "hour" (dt.hour pickup_hour) in
  let* pickup_hour := pd.getitem X_ "pickup_hour" in
  let* _ := pd.setitem X_ "day_of_week" (dt.dayofweek pickup_hour) in
  pd.drop X_ ["pickup_hour"; "pickup_location_id"].

End TemporalFeatureEngineer.

Definition add_temporal_features : TemporalFeatureEngineer.t := ().

(** [FunctionTransformer(average_rides_last_4_weeks, validate=False)]:
    [transform] hands the caller's frame to the function as it is. *)
Definition add_feature_average_rides_last_4_weeks (X : loc) : M loc :=
  average_rides_last_4_weeks X.

(** ** The batch fetch of raw rides (feature-pipeline notebook) *)

(** A row of the raw rides table: the two columns the function reads. *)
Record Ride : Type := mkRide {
  pickup_datetime : Z;
  pickup_location_id : Z
}.

(** [Union[datetime, str]]: a datetime is given by its timestamp on the
    naive wall clock.  What Python does with a naive date next to an aware
    one (it refuses to compare them) and with a date that leaves the range
    of [datetime] when shifted is outside this embedding: nothing below is
    stated about such calls. *)
Inductive date_arg : Type :=
  | Datetime (t : Z)
  | Str (s : string).

(** The order [sort_values(by=['pickup_location_id', 'pickup_datetime'])]
    sorts by. *)
Definition ride_leb (a b : Ride) : bool :=
  (pickup_location_id a <? pickup_location_id b)%Z
  || ((pickup_location_id a =? pickup_location_id b)%Z
      && (pickup_datetime a <=? pickup_datetime b)%Z).

(** A stable sort: a row goes in front of the first row that is greater. *)
Fixpoint insert_ride (r : Ride) (l : list Ride) : list Ride :=
  match l with
  | [] => [r]
  | x :: l' => if ride_leb x r then x :: insert_ride r l' else r :: x :: l'
  end.

Definition sort_values (l : list Ride) : list Ride := foldr insert_ride [] l.

(** [rides['pickup_datetime'] += delta] *)
Definition shift_pickup_datetime (delta : Z) (l : list Ride) : list Ride :=
  map (λ r, mkRide (pickup_datetime r + delta) (pickup_location_id r)) l.

Section fetch.

(** [datetime.fromisoformat] on a string without UTC offset, which gives
    a naive datetime: its timestamp, or [None] for a string that is not
    an ISO date (the library raises [ValueError]). *)
Variable fromisoformat : string → option Z.

(** [src.data_utils.load_and_process_taxi_data(year, months)], which is
    not part of the notebook: the rides of the monthly files asked for. *)
Variable load_and_process_taxi_data : Z → list Z → list Ride.

Definition parse_date (d : date_arg) : exn + Z :=
  match d with
  | Datetime t => inr t
  | Str s =>
      match fromisoformat s with
      | Some t => inr t
      | None => inl (ValueError ("Invalid isoformat string: '" +:+ s +:+ "'"))
      end
  end.

Definition fetch_batch_raw_data (from_date to_date : date_arg) : exn + list Ride :=
  match parse_date from_date with
  | inl e => inl e
  | inr from_date =>
  match parse_date to_date with
  | inl e => inl e
  | inr to_date =>
    if (from_date >=? to_date)%Z then
      inl (ValueError "'from_date' must be earlier than 'to_date'.")
    else
      let historical_from_date := (from_date - datetime.timedelta_weeks 52)%Z in
      let historical_to_date := (to_date - datetime.timedelta_weeks 52)%Z in
      let rides_from :=
        load_and_process_taxi_data (datetime.year historical_from_date)
                                   [datetime.month historical_from_date] in
      let rides_from :=
        filter (λ r, (historical_from_date ≤ pickup_datetime r)%Z) rides_from in
      let rides :=
        if negb (datetime.month historical_to_date =? datetime.month historical_from_date)%Z
        then
          let rides_to :=
            load_and_process_taxi_data (datetime.year historical_to_date)
                                       [datetime.month historical_to_date] in
          let rides_to :=
            filter (λ r, (pickup_datetime r < historical_to_date)%Z) rides_to in
          rides_from ++ rides_to
        else rides_from in
      let rides := shift_pickup_datetime (datetime.timedelta_weeks 52) rides in
      inr (sort_values rides)
  end end.

End fetch.

(** ** The time-based split (called by every modelling notebook) *)

Module mask.
(** [df[mask]] on one column: the cells whose mask bit is set. *)
Fixpoint select {A} (m : list bool) (s : list A) : list A :=
  match m, s with
  | b :: m', x :: s' => if b then x :: select m' s' else select m' s'
  | _, _ => []
  end.

(** The row numbers a mask keeps, counted from [i]. *)
Fixpoint row_numbers (i : nat) (m : list bool) : list nat :=
  match m with
  | [] => []
  | b :: m' => if b then i :: row_numbers (S i) m' else row_numbers (S i) m'
  end.

(** The cells of a column at the given row numbers. *)
Definition take_rows {A} (rows : list nat) (s : list A) : list A :=
  omap (λ i, s !! i) rows.
End mask.

(** [df[mask]]: a new frame holding the selected rows of every column. *)
Definition getitem_mask (X : loc) (m : list bool) : M loc :=
  let* df := pd.frame X in pd.new (mask.select m <$> df).

(** The comparisons [pickup_hour < cutoff_date] and
    [pickup_hour >= cutoff_date] of a cell with a timestamp. *)
Definition Qlt_bool (x y : Q) : bool := (Qnum x * QDen y <? Qnum y * QDen x)%Z.
Definition before (cutoff : Z) (q : Q) : bool := Qlt_bool q (inject_Z cutoff).
Definition at_or_after (cutoff : Z) (q : Q) : bool := Qle_bool (inject_Z cutoff) q.

(** Modelled from the spec: [src.data_utils.split_time_series_data] is
    imported by the notebooks and its body is not among them.  The spec
    has it split the feature set by time (a time-based train/test split);
    the call sites give it the frame, the cutoff date and the name of the
    target column and take back features and target of the two parts.
    Rows whose [pickup_hour] is before the cutoff are the training part,
    the others the test part; the target column is taken out of both. *)
Definition split_time_series_data (df : loc) (cutoff_date : Z) (target_column : string)
    : M (loc * Series * loc * Series) :=
  let* pickup_hour := pd.getitem df "pickup_hour" in
  let* train_data := getitem_mask df (map (before cutoff_date) pickup_hour) in
  let* test_data := getitem_mask df (map (at_or_after cutoff_date) pickup_hour) in
  let* X_train := pd.drop train_data [target_column] in
  let* y_train := pd.getitem train_data target_column in
  let* X_test := pd.drop test_data [target_column] in
  let* y_test := pd.getitem test_data target_column in
  ret (X_train, y_train, X_test, y_test).

(** ** Evaluation and logging (the last cell of every modelling notebook) *)

Definition Qabs_diff (a b : Q) : Q := Qabs (a - b).

(** [sklearn.metrics.mean_absolute_error] of two series of one length. *)
Definition mean_absolute_error (y_true y_pred : Series) : Q :=
  pd.mean (zip_with Qabs_diff y_true y_pred).

Section modelling.

(** A fitted gradient-boosted regressor (XGBoost, LightGBM): what it
    predicts is a function of the frame it is given. *)
Variable Regressor : Type.
Variable regressor_predict : Regressor → DataFrame → Series.
(** [xgb.XGBRegressor(max_depth=10).fit] and [lgb.LGBMRegressor().fit] *)
Variable XGBRegressor_fit : DataFrame → Series → Regressor.
Variable LGBMRegressor_fit : DataFrame → Series → Regressor.

(** What a notebook logs: a bare regressor, or the pipeline made of the
    two feature steps and a regressor. *)
Inductive Estimator : Type :=
  | Bare (r : Regressor)
  | Pipeline (r : Regressor).

(** [model.predict(X)]; the pipeline runs its steps on [X] first. *)
Definition predict (model : Estimator) (X : loc) : M Series :=
  match model with
  | Bare r => let* df := pd.frame X in ret (regressor_predict r df)
  | Pipeline r =>
      let* X1 := add_feature_average_rides_last_4_weeks X in
      let* X2 := TemporalFeatureEngineer.transform add_temporal_features X1 in
      let* df := pd.frame X2 in
      ret (regressor_predict r df)
  end.

(** A run of the experiment tracker. *)
Record Run : Type := mkRun {
  run_experiment : string;
  run_model : Estimator;
  run_input_example : DataFrame;
  run_metric : string;
  run_score : Q
}.

(** Modelled from the spec: [src.experiment_utils.set_mlflow_tracking]
    is imported by the notebooks and its body is not among them.  The
    spec has the notebooks log to an experiment tracker; the call sets
    the connection up and hands the tracker back, and adds no run. *)
Definition set_mlflow_tracking (mlflow : list Run) : list Run := mlflow.

(** Modelled from the spec: [src.experiment_utils.log_model_to_mlflow]
    is imported by the notebooks and its body is not among them.  The
    spec has it log the model and the metric to the experiment tracker:
    one run is added, holding the model, the input example and the
    score under the metric's name. *)
Definition log_model_to_mlflow (model : Estimator) (input_data : loc)
    (experiment_name metric_name : string) (score : Q)
    (mlflow : list Run) : M (list Run) :=
  let* df := pd.frame input_data in
  ret (mlflow ++ [mkRun experiment_name model df metric_name score]).

(** Last cell of the XGBoost notebook. *)
Definition xgboost_cell (X_train_only_numeric : loc) (y_train : Series)
    (X_test_only_numeric : loc) (y_test : Series) (mlflow : list Run)
    : M (list Run) :=
  let* train := pd.frame X_train_only_numeric in
  let model := Bare (XGBRegressor_fit train y_train) in
  let* predictions := predict model X_test_only_numeric in
  let test_mae := mean_absolute_error y_test predictions in
  let mlflow := set_mlflow_tracking mlflow in
  log_model_to_mlflow model X_test_only_numeric "XGBoost" "mean_absolute_error"
    test_mae mlflow.

(** Last cell of the LightGBM notebook. *)
Definition lightgbm_cell (X_train_only_numeric : loc) (y_train : Series)
    (X_test_only_numeric : loc) (y_test : Series) (mlflow : list Run)
    : M (list Run) :=
  let* train := pd.frame X_train_only_numeric in
  let model := Bare (LGBMRegressor_fit train y_train) in
  let* predictions := predict model X_test_only_numeric in
  let test_mae := mean_absolute_error y_test predictions in
  let mlflow := set_mlflow_tracking mlflow in
  log_model_to_mlflow model X_test_only_numeric "LGBMRegressor" "mean_absolute_error"
    test_mae mlflow.

(** The evaluation that ends the search cell of the hyper-parameter
    notebook ([y_pred], [mae]), and its last cell. *)
Definition search_evaluation (best_model : Estimator) (X_test : loc) (y_test : Series)
    : M Q :=
  let* y_pred := predict best_model X_test in
  ret (mean_absolute_error y_test y_pred).

Definition hyper_cell (best_model : Estimator) (X_test : loc) (y_test : Series)
    (mlflow : list Run) : M (list Run) :=
  let* predictions := predict best_model X_test in
  let test_mae := mean_absolute_error y_test predictions in
  let mlflow := set_mlflow_tracking mlflow in
  log_model_to_mlflow best_model X_test "LGBMRegressorHyper" "mean_absolute_error"
    test_mae mlflow.

End modelling.

Arguments Bare {Regressor} r.
Arguments Pipeline {Regressor} r.
Arguments mkRun {Regressor} _ _ _ _ _.
Arguments run_experiment {Regressor} _.
Arguments run_model {Regressor} _.
Arguments run_input_example {Regressor} _.
Arguments run_metric {Regressor} _.
Arguments run_score {Regressor} _.
Arguments predict {Regressor} regressor_predict model X.
Arguments set_mlflow_tracking {Regressor} mlflow.
Arguments log_model_to_mlflow {Regressor} model input_data _ _ score mlflow.
Arguments xgboost_cell {Regressor} regressor_predict XGBRegressor_fit _ _ _ _ mlflow.
Arguments lightgbm_cell {Regressor} regressor_predict LGBMRegressor_fit _ _ _ _ mlflow.
Arguments search_evaluation {Regressor} regressor_predict best_model X_test y_test.
Arguments hyper_cell {Regressor} regressor_predict best_model X_test y_test mlflow.

(** ** The calendar, step by step

    The intermediate quantities of [datetime.civil], named so that they can
    be bounded one at a time. *)

Module calendar.
Local Open Scope Z_scope.

Definition era_of (d : Z) : Z := (d + 719468) / 146097.
Definition doe_of (d : Z) : Z := d + 719468 - era_of d * 146097.
Definition yoe_of (doe : Z) : Z :=
  (doe - doe / 1460 + doe / 36524 - doe / 146096) / 365.
Definition doy_of (doe : Z) : Z :=
  doe - (365 * yoe_of doe + yoe_of doe / 4 - yoe_of doe / 100).
Definition mp_of (doe : Z) : Z := (5 * doy_of doe + 2) / 153.

(** Months elapsed up to the month of day [d]. *)
Definition month_count (d : Z) : Z :=
  12 * (400 * era_of d + yoe_of (doe_of d)) + mp_of (doe_of d) + 3.

End calendar.

(** The monthly files hold the rides of their month: what the notebook
    relies on when it asks [load_and_process_taxi_data] for one month. *)
Definition monthly_files (load_and_process_taxi_data : Z → list Z → list Ride) : Prop :=
  ∀ year month r,
    r ∈ load_and_process_taxi_data year [month] →
    datetime.year (pickup_datetime r) = year
    ∧ datetime.month (pickup_datetime r) = month.

(** The rides the function keeps, before it moves and sorts them. *)
Definition selected_rides (load_and_process_taxi_data : Z → list Z → list Ride)
    (historical_from_date historical_to_date : Z) : list Ride :=
  let rides_from :=
    filter (λ r, (historical_from_date ≤ pickup_datetime r)%Z)
      (load_and_process_taxi_data (datetime.year historical_from_date)
                                  [datetime.month historical_from_date]) in
  if negb (datetime.month historical_to_date =? datetime.month historical_from_date)%Z
  then rides_from ++
       filter (λ r, (pickup_datetime r < historical_to_date)%Z)
         (load_and_process_taxi_data (datetime.year historical_to_date)
                                     [datetime.month historical_to_date])
  else rides_from.

(** ** The window the feature-pipeline notebook asks for *)

(** [Timestamp.floor("h")] *)
Definition floor_h (t : Z) : Z := (t - t mod datetime.NS_PER_HOUR)%Z.

(** The cell that sets [fetch_data_from] and [fetch_data_to] from the
    clock. *)
Definition fetch_window (now : Z) : Z * Z :=
  let current_date := floor_h now in
  let fetch_data_to := current_date in
  let fetch_data_from := (current_date - datetime.timedelta_days 29)%Z in
  (fetch_data_from, fetch_data_to).

(** ** Sample data *)

(** [col not in X.columns] *)
Definition absent (df : DataFrame) (c : string) : bool :=
  negb (bool_decide (is_Some (df !! c))).

(** The frame once [hour] and [day_of_week] have been written into it. *)
Definition temporal_columns (ph : Series) (df : DataFrame) : DataFrame :=
  <["day_of_week" := dt.dayofweek ph]> (<["hour" := dt.hour ph]> df).

(** The frame the two feature steps of the pipeline hand to the regressor. *)
Definition pipeline_features (a b c d ph : Series) (df : DataFrame) : DataFrame :=
  delete "pickup_location_id"
    (delete "pickup_hour"
       (temporal_columns ph
          (<["average_rides_last_4_weeks" := pd.mean_axis1 [a; b; c; d]]> df))).

(** The order of the sort, as a proposition: a smaller station, or the
    same station and a pickup that is not later. *)
Definition ride_le (a b : Ride) : Prop :=
  (pickup_location_id a < pickup_location_id b
   ∨ (pickup_location_id a = pickup_location_id b
      ∧ pickup_datetime a ≤ pickup_datetime b))%Z.

Module sample.
(** Two hourly rows of station 43: Friday 2023-09-01 at 10:00 and 11:00. *)
Definition tabular : DataFrame :=
  list_to_map
    [ ("rides_t-168", [4; 8]%Q);
      ("rides_t-336", [2; 6]%Q);
      ("rides_t-504", [3; 1]%Q);
      ("rides_t-672", [7; 5]%Q);
      ("pickup_hour", [inject_Z (datetime.make 2023 9 1 10);
                       inject_Z (datetime.make 2023 9 1 11)]);
      ("pickup_location_id", [43; 43]%Q);
      ("target", [5; 9]%Q) ].

(** The same frame once the rolling average has been written into it. *)
Definition averaged : DataFrame :=
  <["average_rides_last_4_weeks" := [4; 5]%Q]> tabular.

(** A frame that lacks the lag of three weeks. *)
Definition no_third_week : DataFrame := delete "rides_t-504" tabular.

Definition store (df : DataFrame) : heap := {[ 1%positive := df ]}.
(** The file of March 2024: one ride before the window asked for below,
    one inside it and one after it. *)
Definition march_2024 : list Ride :=
  [ mkRide (datetime.make 2024 3 20 12) 1;
    mkRide (datetime.make 2024 3 8 9) 2;
    mkRide (datetime.make 2024 3 2 7) 1 ].

Definition taxi_files (year : Z) (months : list Z) : list Ride :=
  if bool_decide (year = 2024%Z ∧ months = [3%Z]) then march_2024 else [].

Definition no_iso_parser (s : string) : option Z := None.

(** A stand-in for a fitted regressor: it predicts the lag of one week. *)
Definition last_week (r : unit) (df : DataFrame) : Series :=
  default [] (df !! "rides_t-168").
Definition fit_last_week (train : DataFrame) (y : Series) : unit := ().

(** A frame with the lag columns and without [pickup_hour]. *)
Definition no_pickup_hour : DataFrame := delete "pickup_hour" tabular.

(** The start of a window that begins in February 2025. *)
Definition february_date : Z := datetime.make 2025 2 25 0.

(** A window of five days inside March 2025. *)
Definition from_date : Z := datetime.make 2025 3 5 0.
Definition to_date : Z := datetime.make 2025 3 10 0.
End sample.

(** * Properties *)

(** ** float64 and the calendar on known values *)

Example round_ties_to_even :
  float64.round (inject_Z (2 ^ 53 + 1)) = inject_Z (2 ^ 53)
  ∧ float64.round (inject_Z (2 ^ 53 + 3)) = inject_Z (2 ^ 53 + 4)
  ∧ float64.round (inject_Z (- (2 ^ 53 + 1))) = inject_Z (- 2 ^ 53).
Proof. by vm_compute. Qed.

Example round_one_tenth :
  float64.round (1 # 10) = (3602879701896397 # 36028797018963968)%Q.
Proof. by vm_compute. Qed.

Example drop_names_the_absent_labels :
  pd.drop_columns ["a"; "b"; "c"] {[ "b" := [1%Q] ]}
  = inl (KeyError "['a', 'c'] not found in axis").
Proof. by vm_compute. Qed.

Example mean_rounds_its_cells :
  pd.mean [inject_Z (2 ^ 53 + 1); 0; 0; 0]%Q = inject_Z (2 ^ 51).
Proof. by vm_compute. Qed.


Example civil_epoch : datetime.civil 0 = (1970, 1, 1)%Z.
Proof. reflexivity. Qed.

Example civil_leap_day :
  datetime.civil (datetime.days_from_civil 2024 2 29) = (2024, 2, 29)%Z.
Proof. reflexivity. Qed.

Example cutoff_is_a_friday : datetime.dayofweek (datetime.make 2023 9 1 0) = 4%Z.
Proof. reflexivity. Qed.

Example hour_of_ten : datetime.hour (datetime.make 2025 2 4 10) = 10%Z.
Proof. reflexivity. Qed.

Example fifty_two_weeks_back :
  let t := (datetime.make 2025 3 5 0 - datetime.timedelta_weeks 52)%Z in
  (datetime.year t, datetime.month t, datetime.day t) = (2024, 3, 6)%Z.
Proof. reflexivity. Qed.

(** ** Running the pandas operations *)

Lemma last_4_weeks_columns_eq :
  last_4_weeks_columns = ["rides_t-168"; "rides_t-336"; "rides_t-504"; "rides_t-672"].
Proof. vm_compute. reflexivity. Qed.

Section run.
Context (h : heap) (X : loc) (df : DataFrame).
Hypothesis HX : h !! X = Some df.

Lemma run_frame : pd.frame X h = (Return df, h).
Proof using HX. unfold pd.frame. by rewrite HX. Qed.

Lemma run_has_column col :
  pd.has_column X col h = (Return (bool_decide (is_Some (df !! col))), h).
Proof using HX. unfold pd.has_column, bind. by rewrite run_frame. Qed.

Lemma run_getitem col :
  pd.getitem X col h =
  match df !! col with
  | Some s => (Return s, h)
  | None => (Raise (KeyError col), h)
  end.
Proof using HX.
  unfold pd.getitem, bind. rewrite run_frame. by destruct (df !! col).
Qed.

Lemma run_setitem col s :
  pd.setitem X col s h = (Return (), <[X := <[col := s]> df]> h).
Proof using HX. unfold pd.setitem. by rewrite HX. Qed.

(** The check loop stops at the first absent column. *)
Lemma run_require_columns cols :
  require_columns X cols h =
  match find (λ c, negb (bool_decide (is_Some (df !! c)))) cols with
  | Some c => (Raise (ValueError ("Missing required column: " +:+ c)), h)
  | None => (Return (), h)
  end.
Proof using HX.
  induction cols as [|c cols IH]; [done|].
  cbn [require_columns find]. unfold bind at 1. rewrite run_has_column.
  destruct (bool_decide (is_Some (df !! c))); [exact IH | done].
Qed.

Lemma run_getitems cols ss :
  Forall2 (λ c s, df !! c = Some s) cols ss →
  pd.getitems X cols h = (Return ss, h).
Proof using HX.
  induction 1 as [|c s cols ss Hc _ IH]; [done|].
  cbn [pd.getitems]. unfold bind. by rewrite run_getitem, Hc, IH.
Qed.

End run.

(** ** The rolling-average feature *)

Lemma absent_true df c : absent df c = true ↔ df !! c = None.
Proof.
  unfold absent. rewrite negb_true_iff, bool_decide_eq_false.
  rewrite <-eq_None_not_Some. done.
Qed.

Lemma absent_false df c : absent df c = false ↔ is_Some (df !! c).
Proof. unfold absent. by rewrite negb_false_iff, bool_decide_eq_true. Qed.

Lemma selection_present (df : DataFrame) cols :
  (∀ c, In c cols → absent df c = false) →
  Forall2 (λ c s, df !! c = Some s) cols (omap (λ c, df !! c) cols).
Proof.
  induction cols as [|c cols IH]; intros Hall; [constructor|].
  destruct (proj1 (absent_false df c) (Hall c (or_introl eq_refl))) as [s Hs].
  cbn. rewrite Hs. constructor; [done|]. apply IH. intros c' ?. apply Hall. by right.
Qed.

(** The whole function in one equation: it stops at the first absent lag
    column, and otherwise writes the row means into the caller's frame. *)
Lemma run_average_rides_last_4_weeks (h : heap) X df :
  h !! X = Some df →
  average_rides_last_4_weeks X h =
  match find (absent df) last_4_weeks_columns with
  | Some c => (Raise (ValueError ("Missing required column: " +:+ c)), h)
  | None =>
      (Return X,
       <[X := <["average_rides_last_4_weeks" :=
                 pd.mean_axis1 (omap (λ c, df !! c) last_4_weeks_columns)]> df]> h)
  end.
Proof.
  intros HX. unfold average_rides_last_4_weeks, bind.
  rewrite (run_require_columns h X df HX). fold (absent df).
  destruct (find (absent df) last_4_weeks_columns) as [c|] eqn:Hfind; [done|].
  rewrite (run_getitems h X df HX last_4_weeks_columns _
             (selection_present df _ (find_none _ _ Hfind))).
  by rewrite (run_setitem h X df HX).
Qed.

Lemma nearest_even_multiple (x d : Z) :
  (0 < d)%Z → float64.nearest_even (x * d) d = x.
Proof.
  intros Hd. unfold float64.nearest_even. cbv zeta.
  rewrite Z.div_mul, Z.mod_mul by lia.
  by assert ((2 * 0 <? d)%Z = true) as -> by lia.
Qed.

Lemma binade_exact (x : Q) (k j : Z) :
  (0 ≤ j ≤ 1022)%Z → k ≠ 0%Z →
  (Qnum x * 2 ^ j = k * QDen x)%Z →
  float64.binade x = (Z.log2 (Z.abs k) - j)%Z.
Proof.
  intros Hj Hk Heq. unfold float64.binade, float64.BIAS.
  assert (0 < QDen x)%Z as Hd by lia.
  assert (Z.abs (Qnum x) * 2 ^ 1100 = (Z.abs k * 2 ^ (1100 - j)) * QDen x)%Z as ->.
  { replace (2 ^ 1100)%Z with (2 ^ j * 2 ^ (1100 - j))%Z
      by (rewrite <-Z.pow_add_r by lia; f_equal; lia).
    assert (Z.abs (Qnum x) * 2 ^ j = Z.abs k * QDen x)%Z as Habs.
    { rewrite <-(Z.abs_eq (2 ^ j)) by (apply Z.pow_nonneg; lia).
      rewrite <-(Z.abs_eq (QDen x)) at 1 by lia.
      rewrite <-!Z.abs_mul. f_equal. exact Heq. }
    rewrite Z.mul_assoc, Habs. ring. }
  rewrite Z.div_mul by lia.
  rewrite Z.log2_mul_pow2 by lia. lia.
Qed.

(** A number [k / 2^j] with less than 53 bits in [k] is a float64:
    rounding leaves it as it is. *)
Lemma round_exact (x : Q) (k j : Z) :
  (0 ≤ j ≤ 1022)%Z → (Z.abs k < 2 ^ 53)%Z →
  (Qnum x * 2 ^ j = k * QDen x)%Z →
  (float64.round x == x)%Q.
Proof.
  intros Hj Hk Heq.
  assert (0 < QDen x)%Z as Hd by lia.
  assert (0 < 2 ^ float64.BIAS)%Z as HB
    by (apply Z.pow_pos_nonneg; unfold float64.BIAS; lia).
  unfold float64.round. cbv zeta. rewrite Qred_correct.
  destruct (Z.eq_dec k 0%Z) as [->|Hk0].
  - assert (Qnum x = 0%Z) as Hn.
    { assert (0 < 2 ^ j)%Z by (apply Z.pow_pos_nonneg; lia). nia. }
    rewrite Hn, Z.mul_0_l.
    replace (float64.nearest_even 0 (QDen x * 2 ^ float64.BIAS)) with 0%Z
      by (symmetry; apply (nearest_even_multiple 0%Z); nia).
    unfold Qeq. cbn. rewrite Hn. lia.
  - rewrite (binade_exact x k j Hj Hk0 Heq).
    assert (0 ≤ Z.log2 (Z.abs k) < 53)%Z as Hlog.
    { split; [apply Z.log2_nonneg|]. apply Z.log2_lt_pow2; lia. }
    rewrite Z.max_l by lia.
    set (s := (52 - (Z.log2 (Z.abs k) - j))%Z).
    assert (j ≤ s)%Z as Hs by (unfold s; lia).
    assert (0 < 2 ^ (s + float64.BIAS))%Z as Hpow
      by (apply Z.pow_pos_nonneg; unfold float64.BIAS; lia).
    assert (Qnum x * 2 ^ (s + float64.BIAS)
            = (k * 2 ^ (s - j)) * (QDen x * 2 ^ float64.BIAS))%Z as HN.
    { replace (s + float64.BIAS)%Z with (j + (s - j) + float64.BIAS)%Z by lia.
      rewrite !Z.pow_add_r by (unfold float64.BIAS; lia).
      rewrite !Z.mul_assoc, Heq. ring. }
    rewrite HN, nearest_even_multiple by nia.
    unfold Qeq. cbn [Qnum Qden]. rewrite Z2Pos.id by lia.
    rewrite HN. ring.
Qed.

Lemma round_exact_integer (x : Q) (k : Z) :
  (x == inject_Z k)%Q → (Z.abs k < 2 ^ 53)%Z →
  (float64.round x == inject_Z k)%Q.
Proof.
  intros Hx Hk. transitivity x; [|exact Hx]. apply (round_exact x k 0%Z); [lia|done|].
  unfold Qeq in Hx. cbn in Hx. lia.
Qed.

Lemma sum_step_exact (acc x : Q) (k z : Z) :
  (acc == inject_Z k)%Q → (x == inject_Z z)%Q →
  (Z.abs z < 2 ^ 53)%Z → (Z.abs (k + z) < 2 ^ 53)%Z →
  (float64.round (acc + float64.round x) == inject_Z (k + z))%Q.
Proof.
  intros Hacc Hx Hz Hkz. apply round_exact_integer; [|done].
  rewrite (round_exact_integer x z Hx Hz), Hacc. by rewrite inject_Z_plus.
Qed.

Lemma quarter_exact (total : Q) (k : Z) :
  (total == inject_Z k)%Q → (Z.abs k < 2 ^ 53)%Z →
  (float64.round (total / inject_Z (Z.of_nat 4)) == inject_Z k / 4)%Q.
Proof.
  intros Htotal Hk.
  assert (total / inject_Z (Z.of_nat 4) == inject_Z k / 4)%Q as Hq
    by (by rewrite Htotal).
  etransitivity; [|exact Hq].
  apply (round_exact _ k 2%Z); [lia|done|].
  unfold Qeq in Hq. cbn in Hq. cbn. lia.
Qed.

(** On integer ride counts the float64 mean of four cells is their mean:
    no sum on the way leaves the integers float64 holds exactly. *)
Lemma mean_of_four (za zb zc zd : Z) :
  (Z.abs za < 2 ^ 51)%Z → (Z.abs zb < 2 ^ 51)%Z →
  (Z.abs zc < 2 ^ 51)%Z → (Z.abs zd < 2 ^ 51)%Z →
  (pd.mean [inject_Z za; inject_Z zb; inject_Z zc; inject_Z zd]
   == inject_Z (za + zb + zc + zd) / 4)%Q.
Proof.
  intros Ha Hb Hc Hd. unfold pd.mean, pd.sum. cbn [foldl length].
  apply quarter_exact; [|lia].
  apply sum_step_exact; [|reflexivity|lia|lia].
  apply sum_step_exact; [|reflexivity|lia|lia].
  apply sum_step_exact; [|reflexivity|lia|lia].
  replace za with (0 + za)%Z at 2 by lia.
  apply sum_step_exact; [reflexivity|reflexivity|lia|lia].
Qed.

Lemma mean_axis1_of_four (a b c d : Series) i va vb vc vd :
  a !! i = Some va → b !! i = Some vb → c !! i = Some vc → d !! i = Some vd →
  pd.mean_axis1 [a; b; c; d] !! i = Some (pd.mean [va; vb; vc; vd]).
Proof.
  intros Ha Hb Hc Hd. unfold pd.mean_axis1. cbn [pd.rows].
  rewrite list_lookup_fmap, !lookup_zip_with, list_lookup_fmap.
  by rewrite Ha, Hb, Hc, Hd.
Qed.

Lemma mean_axis1_of_four_length (a b c d : Series) :
  length (pd.mean_axis1 [a; b; c; d]) =
  (length a `min` (length b `min` (length c `min` length d)))%nat.
Proof.
  unfold pd.mean_axis1. cbn [pd.rows].
  by rewrite length_fmap, !length_zip_with, length_fmap.
Qed.

(** C2: [average_rides_last_4_weeks] raises [ValueError] exactly when one
    of the four lag columns [rides_t-168], [rides_t-336], [rides_t-504],
    [rides_t-672] is absent from the frame; with all four present it
    returns normally. *)
Theorem average_raises_iff_lag_column_absent (h : heap) (X : loc) (df : DataFrame) :
  h !! X = Some df →
  ((∃ msg h', average_rides_last_4_weeks X h = (Raise (ValueError msg), h'))
   ↔ (∃ c, c ∈ ["rides_t-168"; "rides_t-336"; "rides_t-504"; "rides_t-672"]
           ∧ df !! c = None))
  ∧ ((∀ c, c ∈ ["rides_t-168"; "rides_t-336"; "rides_t-504"; "rides_t-672"]
           → is_Some (df !! c))
     → ∃ R h', average_rides_last_4_weeks X h = (Return R, h')).
Proof.
  intros HX. rewrite (run_average_rides_last_4_weeks h X df HX).
  rewrite last_4_weeks_columns_eq.
  destruct (find _ _) as [c|] eqn:Hfind.
  - apply find_some in Hfind as [Hin Habs]. apply absent_true in Habs.
    split; [split|].
    + intros _. exists c. by rewrite list_elem_of_In.
    + intros _. eauto.
    + intros Hall. apply list_elem_of_In, Hall in Hin as [s Hs]. congruence.
  - split; [split|].
    + intros (msg & h' & Hr). discriminate Hr.
    + intros (c & Hin%list_elem_of_In & Hc).
      apply (find_none _ _ Hfind) in Hin. apply absent_false in Hin as [s Hs].
      congruence.
    + intros _. eauto.
Qed.

Lemma average_raises_iff_lag_column_absent_witness :
  sample.store sample.no_third_week !! 1%positive = Some sample.no_third_week
  ∧ ((∃ msg h', average_rides_last_4_weeks 1 (sample.store sample.no_third_week)
                = (Raise (ValueError msg), h'))
     ↔ (∃ c, c ∈ ["rides_t-168"; "rides_t-336"; "rides_t-504"; "rides_t-672"]
             ∧ sample.no_third_week !! c = None)).
Proof.
  split; [reflexivity|].
  apply (average_raises_iff_lag_column_absent
           (sample.store sample.no_third_week) 1 sample.no_third_week).
  reflexivity.
Defined.

(** C4, as stated, fails on a frame that already has a column named
    [average_rides_last_4_weeks]: the call returns the frame with the very
    set of columns it came with, none of them new. *)
Lemma average_no_new_column_counterexample :
  (∀ c, c ∈ ["rides_t-168"; "rides_t-336"; "rides_t-504"; "rides_t-672"]
        → is_Some (sample.averaged !! c))
  ∧ ∃ h' df',
      average_rides_last_4_weeks 1 (sample.store sample.averaged) = (Return 1%positive, h')
      ∧ h' !! 1%positive = Some df'
      ∧ dom df' = dom sample.averaged.
Proof.
  split.
  - intros c Hc. repeat (apply elem_of_cons in Hc as [->|Hc]; [by eexists|]).
    by apply elem_of_nil in Hc.
  - rewrite (run_average_rides_last_4_weeks
               (sample.store sample.averaged) 1 sample.averaged eq_refl).
    change (find (absent sample.averaged) last_4_weeks_columns)
      with (@None string).
    eexists _, _. split; [reflexivity|]. split.
    + unfold sample.store. apply lookup_insert_eq.
    + rewrite dom_insert_L. unfold sample.averaged. rewrite dom_insert_L. set_solver.
Qed.

Lemma lag_columns_found (df : DataFrame) (a b c d : Series) :
  df !! "rides_t-168" = Some a → df !! "rides_t-336" = Some b →
  df !! "rides_t-504" = Some c → df !! "rides_t-672" = Some d →
  find (absent df) last_4_weeks_columns = None
  ∧ omap (λ c, df !! c) last_4_weeks_columns = [a; b; c; d].
Proof.
  intros Ha Hb Hc Hd. rewrite last_4_weeks_columns_eq. split.
  - cbn [find]. by rewrite !(proj2 (absent_false df _)) by (by eexists).
  - cbn. by rewrite Ha, Hb, Hc, Hd.
Qed.

Lemma run_average_present (h : heap) X df (a b c d : Series) :
  h !! X = Some df →
  df !! "rides_t-168" = Some a → df !! "rides_t-336" = Some b →
  df !! "rides_t-504" = Some c → df !! "rides_t-672" = Some d →
  average_rides_last_4_weeks X h =
  (Return X,
   <[X := <["average_rides_last_4_weeks" := pd.mean_axis1 [a; b; c; d]]> df]> h).
Proof.
  intros HX Ha Hb Hc Hd. rewrite (run_average_rides_last_4_weeks h X df HX).
  by destruct (lag_columns_found df a b c d Ha Hb Hc Hd) as [-> ->].
Qed.

(** C4, amended: on a frame that has the four lag columns the helper
    returns the frame with the column [average_rides_last_4_weeks], one
    cell for each row, and with every other column as it was.  In each
    row whose four lag values are ride counts (integers, none missing,
    each below 2^51 in magnitude) the cell is the arithmetic mean of the
    four.  The column is the one new column when the frame had none of
    that name, and takes the place of the former one otherwise. *)
Theorem average_writes_row_means (h : heap) (X : loc) (df : DataFrame)
    (a b c d : Series) :
  h !! X = Some df →
  df !! "rides_t-168" = Some a → df !! "rides_t-336" = Some b →
  df !! "rides_t-504" = Some c → df !! "rides_t-672" = Some d →
  ∃ h' df' m,
    average_rides_last_4_weeks X h = (Return X, h')
    ∧ h' !! X = Some df'
    ∧ df' !! "average_rides_last_4_weeks" = Some m
    ∧ (∀ col, col ≠ "average_rides_last_4_weeks" → df' !! col = df !! col)
    ∧ (df !! "average_rides_last_4_weeks" = None
       → dom df' ∖ dom df = {["average_rides_last_4_weeks"]})
    ∧ (is_Some (df !! "average_rides_last_4_weeks") → dom df' = dom df)
    ∧ length m = (length a `min` (length b `min` (length c `min` length d)))%nat
    ∧ (∀ i za zb zc zd,
         a !! i = Some (inject_Z za) → b !! i = Some (inject_Z zb) →
         c !! i = Some (inject_Z zc) → d !! i = Some (inject_Z zd) →
         (Z.abs za < 2 ^ 51)%Z → (Z.abs zb < 2 ^ 51)%Z →
         (Z.abs zc < 2 ^ 51)%Z → (Z.abs zd < 2 ^ 51)%Z →
         ∃ v, m !! i = Some v ∧ (v == inject_Z (za + zb + zc + zd) / 4)%Q).
Proof.
  intros HX Ha Hb Hc Hd.
  rewrite (run_average_present h X df a b c d HX Ha Hb Hc Hd).
  eexists _, _, _. split; [reflexivity|].
  split; [apply lookup_insert_eq|]. split; [apply lookup_insert_eq|].
  split; [|split; [|split; [|split]]].
  - intros col Hcol. by apply lookup_insert_ne.
  - intros Hnone%not_elem_of_dom. rewrite dom_insert_L. set_solver.
  - intros Hsome%elem_of_dom. rewrite dom_insert_L. set_solver.
  - apply mean_axis1_of_four_length.
  - intros i za zb zc zd Hza Hzb Hzc Hzd Ba Bb Bc Bd.
    exists (pd.mean [inject_Z za; inject_Z zb; inject_Z zc; inject_Z zd]). split.
    + exact (mean_axis1_of_four a b c d i _ _ _ _ Hza Hzb Hzc Hzd).
    + exact (mean_of_four za zb zc zd Ba Bb Bc Bd).
Qed.

Lemma average_writes_row_means_witness :
  ∃ h' df' m,
    average_rides_last_4_weeks 1 (sample.store sample.tabular) = (Return 1%positive, h')
    ∧ h' !! 1%positive = Some df'
    ∧ df' !! "average_rides_last_4_weeks" = Some m
    ∧ length m = 2%nat
    ∧ (∃ v, m !! 0%nat = Some v ∧ (v == inject_Z (4 + 2 + 3 + 7) / 4)%Q)
    ∧ (∃ v, m !! 1%nat = Some v ∧ (v == inject_Z (8 + 6 + 1 + 5) / 4)%Q).
Proof.
  destruct (average_writes_row_means (sample.store sample.tabular) 1 sample.tabular
              [4; 8]%Q [2; 6]%Q [3; 1]%Q [7; 5]%Q
              eq_refl eq_refl eq_refl eq_refl eq_refl)
    as (h' & df' & m & Hrun & HX & Hm & _ & _ & _ & Hlen & Hrows).
  exists h', df', m. split; [exact Hrun|]. split; [exact HX|]. split; [exact Hm|].
  split; [exact Hlen|]. split.
  - exact (Hrows 0%nat 4%Z 2%Z 3%Z 7%Z eq_refl eq_refl eq_refl eq_refl
             eq_refl eq_refl eq_refl eq_refl).
  - exact (Hrows 1%nat 8%Z 6%Z 1%Z 5%Z eq_refl eq_refl eq_refl eq_refl
             eq_refl eq_refl eq_refl eq_refl).
Defined.

(** C9: [average_rides_last_4_weeks] works in place.  A call that returns
    hands back the very object it was given; the caller's frame is then the
    former frame with the column [average_rides_last_4_weeks] written into
    it; no other object is touched and none is created.  The
    [FunctionTransformer] built with [validate=False] passes the caller's
    frame straight to the function. *)
Theorem average_mutates_in_place (h h' : heap) (X R : loc) :
  average_rides_last_4_weeks X h = (Return R, h') →
  R = X
  ∧ (∃ df m, h !! X = Some df
             ∧ h' !! X = Some (<["average_rides_last_4_weeks" := m]> df))
  ∧ (∀ l, l ≠ X → h' !! l = h !! l)
  ∧ dom h' = dom h
  ∧ add_feature_average_rides_last_4_weeks X h = (Return X, h').
Proof.
  intros Hrun. destruct (h !! X) as [df|] eqn:HX.
  - unfold add_feature_average_rides_last_4_weeks.
    rewrite (run_average_rides_last_4_weeks h X df HX) in *.
    destruct (find _ _); [done|]. simplify_eq.
    split; [done|]. split; [|split; [|split]].
    + eexists _, _. split; [done|]. apply lookup_insert_eq.
    + intros l Hl. by apply lookup_insert_ne.
    + rewrite dom_insert_L. apply elem_of_dom_2 in HX. set_solver.
    + done.
  - unfold average_rides_last_4_weeks, bind in Hrun.
    rewrite last_4_weeks_columns_eq in Hrun. cbn in Hrun.
    unfold bind, pd.has_column, bind, pd.frame in Hrun. rewrite HX in Hrun. done.
Qed.

Lemma average_mutates_in_place_witness :
  ∃ h', average_rides_last_4_weeks 1 (sample.store sample.tabular) = (Return 1%positive, h')
        ∧ (∃ df m, sample.store sample.tabular !! 1%positive = Some df
                   ∧ h' !! 1%positive = Some (<["average_rides_last_4_weeks" := m]> df))
        ∧ dom h' = dom (sample.store sample.tabular).
Proof.
  pose proof (run_average_present (sample.store sample.tabular) 1 sample.tabular
                [4; 8]%Q [2; 6]%Q [3; 1]%Q [7; 5]%Q
                eq_refl eq_refl eq_refl eq_refl eq_refl) as Hrun.
  eexists. split; [exact Hrun|].
  destruct (average_mutates_in_place (sample.store sample.tabular) _ 1 1 Hrun)
    as (_ & Hcol & _ & Hdom & _).
  split; [exact Hcol | exact Hdom].
Defined.

(** ** The hour / day-of-week extractor *)

Lemma hour_spec (t : Z) :
  (0 ≤ datetime.hour t < 24
   ∧ ∃ r, 0 ≤ r < datetime.NS_PER_HOUR
          ∧ t = datetime.days t * datetime.NS_PER_DAY
                + datetime.hour t * datetime.NS_PER_HOUR + r)%Z.
Proof.
  unfold datetime.hour, datetime.days, datetime.NS_PER_DAY.
  assert (0 < datetime.NS_PER_HOUR)%Z as HH by (unfold datetime.NS_PER_HOUR; lia).
  split; [apply Z.mod_pos_bound; lia|].
  exists (t mod datetime.NS_PER_HOUR)%Z. split; [apply Z.mod_pos_bound; lia|].
  rewrite (Z.mul_comm 24), <-Z.div_div by lia.
  pose proof (Z.div_mod t datetime.NS_PER_HOUR).
  pose proof (Z.div_mod (t / datetime.NS_PER_HOUR) 24).
  lia.
Qed.

(** Monday is 0: the day number is a whole number of weeks after Monday
    1969-12-29, plus the day of the week. *)
Lemma dayofweek_spec (t : Z) :
  (0 ≤ datetime.dayofweek t < 7
   ∧ ∃ w, datetime.days t
          = datetime.days_from_civil 1969 12 29 + 7 * w + datetime.dayofweek t)%Z.
Proof.
  unfold datetime.dayofweek. split; [apply Z.mod_pos_bound; lia|].
  exists ((datetime.days t + 3) / 7)%Z.
  change (datetime.days_from_civil 1969 12 29) with (-3)%Z.
  pose proof (Z.div_mod (datetime.days t + 3) 7). lia.
Qed.

(** The whole method in one equation. *)
Lemma run_transform (h : heap) self X df :
  h !! X = Some df →
  TemporalFeatureEngineer.transform self X h =
  let X_ := fresh (dom h) in
  match df !! "pickup_hour" with
  | None => (Raise (KeyError "pickup_hour"), <[X_ := df]> h)
  | Some ph =>
      let h2 := <[X_ := temporal_columns ph df]> h in
      match df !! "pickup_location_id" with
      | None => (Raise (KeyError "['pickup_location_id'] not found in axis"), h2)
      | Some _ =>
          (Return (fresh (dom h2)),
           <[fresh (dom h2) :=
               delete "pickup_location_id"
                 (delete "pickup_hour" (temporal_columns ph df))]> h2)
      end
  end.
Proof.
  intros HX. cbv zeta. unfold TemporalFeatureEngineer.transform.
  unfold bind at 1. unfold pd.copy, bind at 1. rewrite (run_frame h X df HX).
  unfold pd.new. set (X_ := fresh (dom h)). set (h0 := <[X_ := df]> h).
  assert (h0 !! X_ = Some df) as H0 by apply lookup_insert_eq.
  unfold bind at 1. rewrite (run_getitem h0 X_ df H0).
  destruct (df !! "pickup_hour") as [ph|] eqn:Hph; [|done].
  unfold bind at 1. rewrite (run_setitem h0 X_ df H0).
  set (df1 := <["hour" := dt.hour ph]> df). set (h1 := <[X_ := df1]> h0).
  assert (h1 !! X_ = Some df1) as H1 by apply lookup_insert_eq.
  unfold bind at 1. rewrite (run_getitem h1 X_ df1 H1).
  assert (df1 !! "pickup_hour" = Some ph) as ->
    by (unfold df1; by rewrite lookup_insert_ne).
  unfold bind at 1. rewrite (run_setitem h1 X_ df1 H1).
  change (<["day_of_week" := dt.dayofweek ph]> df1) with (temporal_columns ph df).
  assert (<[X_ := temporal_columns ph df]> h1 = <[X_ := temporal_columns ph df]> h)
    as -> by (unfold h1, h0; by rewrite !insert_insert_eq).
  set (h2 := <[X_ := temporal_columns ph df]> h).
  assert (h2 !! X_ = Some (temporal_columns ph df)) as H2 by apply lookup_insert_eq.
  unfold pd.drop, bind. rewrite (run_frame h2 X_ _ H2).
  unfold pd.drop_columns. cbn [List.filter].
  assert (temporal_columns ph df !! "pickup_hour" = Some ph) as ->
    by (unfold temporal_columns; by rewrite !lookup_insert_ne).
  assert (temporal_columns ph df !! "pickup_location_id"
          = df !! "pickup_location_id") as ->
    by (unfold temporal_columns; by rewrite !lookup_insert_ne).
  rewrite (bool_decide_eq_true_2 (is_Some (Some ph))) by by eexists.
  destruct (df !! "pickup_location_id") as [ids|].
  - by rewrite (bool_decide_eq_true_2 (is_Some (Some ids))) by by eexists.
  - by rewrite (bool_decide_eq_false_2 (is_Some None)) by by intros [].
Qed.

(** C5: on a frame with a datetime column [pickup_hour] and a column
    [pickup_location_id], [transform] returns a frame whose [hour] column
    is, row by row, the hour of the day (0 to 23) of [pickup_hour] and
    whose [day_of_week] column is its day of the week (0 to 6, Monday 0);
    [pickup_hour] and [pickup_location_id] are gone and every other column
    is as it was. *)
Theorem transform_extracts_hour_and_day (h : heap) (X : loc) (df : DataFrame)
    (pickup_hour : Series) :
  h !! X = Some df →
  df !! "pickup_hour" = Some pickup_hour →
  is_Some (df !! "pickup_location_id") →
  ∃ R h' df' hours dows,
    TemporalFeatureEngineer.transform add_temporal_features X h = (Return R, h')
    ∧ h' !! R = Some df'
    ∧ df' !! "hour" = Some hours
    ∧ df' !! "day_of_week" = Some dows
    ∧ length hours = length pickup_hour
    ∧ length dows = length pickup_hour
    ∧ (∀ i q, pickup_hour !! i = Some q →
         hours !! i = Some (inject_Z (datetime.hour (Qfloor q)))
         ∧ dows !! i = Some (inject_Z (datetime.dayofweek (Qfloor q)))
         ∧ (0 ≤ datetime.hour (Qfloor q) ≤ 23)%Z
         ∧ (0 ≤ datetime.dayofweek (Qfloor q) ≤ 6)%Z)
    ∧ df' !! "pickup_hour" = None
    ∧ df' !! "pickup_location_id" = None
    ∧ (∀ col, col ∉ ["hour"; "day_of_week"; "pickup_hour"; "pickup_location_id"]
              → df' !! col = df !! col).
Proof.
  intros HX Hph [ids Hid]. rewrite (run_transform h _ X df HX). cbv zeta.
  rewrite Hph, Hid. eexists _, _, _, _, _. split; [reflexivity|].
  split; [apply lookup_insert_eq|]. unfold temporal_columns.
  split; [by rewrite !lookup_delete_ne, lookup_insert_ne, lookup_insert_eq|].
  split; [by rewrite !lookup_delete_ne, lookup_insert_eq|].
  split; [apply length_fmap|]. split; [apply length_fmap|].
  split; [|split; [|split]].
  - intros i q Hq. unfold dt.hour, dt.dayofweek. rewrite !list_lookup_fmap, Hq.
    pose proof (hour_spec (Qfloor q)) as [? _].
    pose proof (dayofweek_spec (Qfloor q)) as [? _].
    repeat split; lia.
  - by rewrite lookup_delete_ne, lookup_delete_eq.
  - by rewrite lookup_delete_eq.
  - intros col Hcol.
    rewrite !not_elem_of_cons in Hcol. destruct Hcol as (? & ? & ? & ? & _).
    by rewrite !lookup_delete_ne, !lookup_insert_ne.
Qed.

Lemma transform_extracts_hour_and_day_witness :
  ∃ R h' df',
    TemporalFeatureEngineer.transform add_temporal_features 1
      (sample.store sample.tabular) = (Return R, h')
    ∧ h' !! R = Some df'
    ∧ df' !! "hour" = Some [10; 11]%Q
    ∧ df' !! "day_of_week" = Some [4; 4]%Q
    ∧ df' !! "pickup_hour" = None
    ∧ df' !! "pickup_location_id" = None
    ∧ df' !! "target" = Some [5; 9]%Q.
Proof.
  destruct (transform_extracts_hour_and_day (sample.store sample.tabular) 1
              sample.tabular _ eq_refl eq_refl (ex_intro _ _ eq_refl))
    as (R & h' & df' & hours & dows & Hrun & HR & Hh & Hd & Hlh & Hld
        & Hrows & Hph & Hid & Hrest).
  exists R, h', df'. split; [exact Hrun|]. split; [exact HR|].
  destruct (Hrows 0%nat _ eq_refl) as (Hh0 & Hd0 & _).
  destruct (Hrows 1%nat _ eq_refl) as (Hh1 & Hd1 & _).
  destruct hours as [|x0 [|x1 [|]]]; try discriminate Hlh.
  destruct dows as [|y0 [|y1 [|]]]; try discriminate Hld.
  injection Hh0 as ->. injection Hh1 as ->. injection Hd0 as ->. injection Hd1 as ->.
  split; [exact Hh|]. split; [exact Hd|]. split; [exact Hph|]. split; [exact Hid|].
  rewrite Hrest; [reflexivity|]. rewrite !not_elem_of_cons.
  repeat split; try discriminate. apply not_elem_of_nil.
Defined.

(** C10: [transform] never writes to the frame it is given, nor to any
    other object that exists when it is called: it works on a copy, and
    what it returns is a new object.  This holds for every call, one that
    raises included.  [fit] hands the transformer back and leaves the
    store alone, so [fit] followed by [transform] does what [transform]
    alone does. *)
Theorem transform_leaves_input_untouched (h h' : heap)
    (self : TemporalFeatureEngineer.t) (X : loc) (o : outcome loc) :
  TemporalFeatureEngineer.transform self X h = (o, h') →
  (∀ l, l ∈ dom h → h' !! l = h !! l)
  ∧ (∀ R, o = Return R → R ∉ dom h)
  ∧ TemporalFeatureEngineer.fit self X h = (Return self, h)
  ∧ (let* fitted := TemporalFeatureEngineer.fit self X in
     TemporalFeatureEngineer.transform fitted X) h = (o, h').
Proof.
  intros Hrun. split; [|split; [|split]]; [| |done|exact Hrun].
  - intros l Hl. destruct (h !! X) as [df|] eqn:HX.
    + rewrite (run_transform h self X df HX) in Hrun. cbv zeta in Hrun.
      assert (l ≠ fresh (dom h)) as Hne1 by (intros ->; by apply is_fresh in Hl).
      destruct (df !! "pickup_hour") as [ph|]; simplify_eq.
      2:{ by rewrite lookup_insert_ne. }
      assert (l ≠ fresh (dom (<[fresh (dom h) := temporal_columns ph df]> h))) as Hne2.
      { intros ->.
        apply (is_fresh (dom (<[fresh (dom h) := temporal_columns ph df]> h))).
        rewrite dom_insert_L at 2. apply elem_of_union_r, Hl. }
      destruct (df !! "pickup_location_id"); simplify_eq.
      * by rewrite !lookup_insert_ne.
      * by rewrite lookup_insert_ne.
    + unfold TemporalFeatureEngineer.transform, bind, pd.copy, bind, pd.frame in Hrun.
      rewrite HX in Hrun. by simplify_eq.
  - intros R ->. destruct (h !! X) as [df|] eqn:HX.
    + rewrite (run_transform h self X df HX) in Hrun. cbv zeta in Hrun.
      destruct (df !! "pickup_hour") as [ph|]; [|done].
      destruct (df !! "pickup_location_id"); simplify_eq.
      intros Hin.
      apply (is_fresh (dom (<[fresh (dom h) := temporal_columns ph df]> h))).
      rewrite dom_insert_L at 2. apply elem_of_union_r, Hin.
    + unfold TemporalFeatureEngineer.transform, bind, pd.copy, bind, pd.frame in Hrun.
      rewrite HX in Hrun. by simplify_eq.
Qed.

Lemma transform_leaves_input_untouched_witness :
  ∃ R h',
    TemporalFeatureEngineer.transform add_temporal_features 1
      (sample.store sample.tabular) = (Return R, h')
    ∧ h' !! 1%positive = Some sample.tabular
    ∧ R ∉ dom (sample.store sample.tabular).
Proof.
  pose proof (run_transform (sample.store sample.tabular) add_temporal_features 1
                sample.tabular eq_refl) as Hrun.
  cbv zeta in Hrun.
  change (sample.tabular !! "pickup_hour")
    with (Some [inject_Z (datetime.make 2023 9 1 10);
                inject_Z (datetime.make 2023 9 1 11)]) in Hrun.
  change (sample.tabular !! "pickup_location_id") with (Some [43; 43]%Q) in Hrun.
  cbv beta iota in Hrun.
  eexists _, _. split; [exact Hrun|].
  destruct (transform_leaves_input_untouched (sample.store sample.tabular) _
              add_temporal_features 1 _ Hrun) as (Hkeep & Hnew & _).
  split.
  - rewrite Hkeep; [apply lookup_singleton_eq|].
    unfold sample.store. rewrite dom_singleton_L. apply elem_of_singleton_2. reflexivity.
  - by apply Hnew.
Defined.

(** ** The batch fetch of raw rides *)

Lemma ride_leb_le a b : ride_leb a b = true ↔ ride_le a b.
Proof.
  unfold ride_leb, ride_le.
  rewrite orb_true_iff, andb_true_iff, Z.ltb_lt, Z.eqb_eq, Z.leb_le. done.
Qed.

Lemma ride_leb_total a b : ride_leb a b = false → ride_le b a.
Proof.
  unfold ride_leb, ride_le.
  rewrite orb_false_iff, andb_false_iff, Z.ltb_ge, Z.eqb_neq, Z.leb_gt. lia.
Qed.

Lemma insert_ride_HdRel x r l :
  ride_le x r → HdRel ride_le x l → HdRel ride_le x (insert_ride r l).
Proof.
  intros Hxr Hl. destruct l as [|y l]; cbn.
  - by constructor.
  - destruct (ride_leb y r); constructor; [|done]. by inversion Hl.
Qed.

Lemma insert_ride_Sorted r l :
  Sorted ride_le l → Sorted ride_le (insert_ride r l).
Proof.
  induction 1 as [|x l Hsorted IH Hhd]; cbn.
  - by repeat constructor.
  - destruct (ride_leb x r) eqn:Hxr.
    + constructor; [exact IH|]. apply insert_ride_HdRel; [|done].
      by apply ride_leb_le.
    + constructor; [by constructor|]. constructor. by apply ride_leb_total.
Qed.

Lemma sort_values_Sorted l : Sorted ride_le (sort_values l).
Proof.
  induction l as [|r l IH]; [constructor|]. cbn. by apply insert_ride_Sorted.
Qed.

Lemma insert_ride_Permutation r l : insert_ride r l ≡ₚ r :: l.
Proof.
  induction l as [|x l IH]; [done|]. cbn.
  destruct (ride_leb x r); [|done]. rewrite IH. apply Permutation_swap.
Qed.

(** Sorting loses no row and makes none up. *)
Lemma sort_values_Permutation l : sort_values l ≡ₚ l.
Proof.
  induction l as [|r l IH]; [done|]. cbn.
  by rewrite insert_ride_Permutation, IH.
Qed.

Lemma Sorted_consecutive {A} (R : A → A → Prop) (l : list A) :
  Sorted R l → ∀ i a b, l !! i = Some a → l !! S i = Some b → R a b.
Proof.
  induction 1 as [|x l Hsorted IH Hhd]; intros i a b Ha Hb; [done|].
  destruct i as [|i]; cbn in Ha, Hb.
  - simplify_eq. destruct Hhd; by simplify_eq/=.
  - by eapply IH.
Qed.

(** The function on a window that passes the guard. *)
Lemma run_fetch fromisoformat loader from_date to_date f t :
  parse_date fromisoformat from_date = inr f →
  parse_date fromisoformat to_date = inr t →
  (f < t)%Z →
  ∃ rides,
    fetch_batch_raw_data fromisoformat loader from_date to_date
    = inr (sort_values (shift_pickup_datetime (datetime.timedelta_weeks 52) rides)).
Proof.
  intros Hf Ht Hlt. unfold fetch_batch_raw_data. rewrite Hf, Ht.
  assert ((f >=? t)%Z = false) as -> by lia.
  by eexists.
Qed.

(** C8: for every window that passes the guard, the table returned by
    [fetch_batch_raw_data] is sorted by ([pickup_location_id],
    [pickup_datetime]): of two consecutive rows, the first has the smaller
    station, or the same station and a pickup that is not later. *)
Theorem fetch_batch_raw_data_sorted (fromisoformat : string → option Z)
    (load_and_process_taxi_data : Z → list Z → list Ride)
    (from_date to_date : date_arg) (f t : Z) :
  parse_date fromisoformat from_date = inr f →
  parse_date fromisoformat to_date = inr t →
  (f < t)%Z →
  ∃ rides,
    fetch_batch_raw_data fromisoformat load_and_process_taxi_data from_date to_date
    = inr rides
    ∧ ∀ i a b, rides !! i = Some a → rides !! S i = Some b →
        (pickup_location_id a < pickup_location_id b
         ∨ (pickup_location_id a = pickup_location_id b
            ∧ pickup_datetime a ≤ pickup_datetime b))%Z.
Proof.
  intros Hf Ht Hlt.
  destruct (run_fetch fromisoformat load_and_process_taxi_data
              from_date to_date f t Hf Ht Hlt) as [rides ->].
  eexists. split; [reflexivity|].
  apply (Sorted_consecutive ride_le), sort_values_Sorted.
Qed.

Lemma fetch_batch_raw_data_sorted_witness :
  (sample.from_date < sample.to_date)%Z
  ∧ ∃ rides,
      fetch_batch_raw_data sample.no_iso_parser sample.taxi_files
        (Datetime sample.from_date) (Datetime sample.to_date) = inr rides
      ∧ ∀ i a b, rides !! i = Some a → rides !! S i = Some b →
          (pickup_location_id a < pickup_location_id b
           ∨ (pickup_location_id a = pickup_location_id b
              ∧ pickup_datetime a ≤ pickup_datetime b))%Z.
Proof.
  split; [reflexivity|].
  apply (fetch_batch_raw_data_sorted sample.no_iso_parser sample.taxi_files
           (Datetime sample.from_date) (Datetime sample.to_date)
           sample.from_date sample.to_date eq_refl eq_refl).
  reflexivity.
Defined.

(** C1 fails when the two shifted dates fall in one calendar month: that
    branch never compares with [to_date].  Asked for 2025-03-05 to
    2025-03-10, the function returns the ride of 2024-03-20 12:00, moved
    to 2025-03-19 12:00, nine days after the end of the window. *)
Theorem fetch_same_month_returns_rides_after_to_date :
  fetch_batch_raw_data sample.no_iso_parser sample.taxi_files
    (Datetime sample.from_date) (Datetime sample.to_date)
  = inr [ mkRide (datetime.make 2025 3 19 12) 1;
          mkRide (datetime.make 2025 3 7 9) 2 ]
  ∧ (sample.from_date < sample.to_date)%Z
  ∧ (sample.to_date ≤ datetime.make 2025 3 19 12)%Z.
Proof. split; [vm_compute; reflexivity|]. split; [reflexivity|]. by vm_compute. Qed.

(** ** What the helpers raise *)









(** ** The time-based split *)

Lemma row_numbers_ge k m i : i ∈ mask.row_numbers k m → k ≤ i.
Proof.
  revert k. induction m as [|b m IH]; intros k; cbn; [by intros ?%elem_of_nil|].
  destruct b.
  - intros [->|Hi%IH]%elem_of_cons; lia.
  - intros Hi%IH. lia.
Qed.

Lemma row_numbers_elem k m i :
  i ∈ mask.row_numbers k m ↔ ∃ j, i = k + j ∧ m !! j = Some true.
Proof.
  revert k. induction m as [|b m IH]; intros k; cbn.
  - split; [by intros ?%elem_of_nil | by intros (j & _ & ?)].
  - assert (i ∈ mask.row_numbers (S k) m ↔ ∃ j, i = k + S j ∧ m !! j = Some true)
      as IH'.
    { rewrite IH. by setoid_rewrite Nat.add_succ_r. }
    destruct b; [rewrite elem_of_cons|]; rewrite IH'; split.
    + intros [->|(j & -> & Hj)]; [exists 0 | exists (S j)]; split; (lia || done).
    + intros ([|j] & -> & Hj); [left; lia | right; by exists j].
    + intros (j & -> & Hj). by exists (S j).
    + intros ([|j] & -> & Hj); [done | by exists j].
Qed.

Lemma row_numbers_NoDup k m : NoDup (mask.row_numbers k m).
Proof.
  revert k. induction m as [|b m IH]; intros k; cbn; [constructor|].
  destruct b; [|apply IH]. constructor; [|apply IH].
  intros Hk%row_numbers_ge. lia.
Qed.

Lemma take_rows_beyond {A} rows (s : list A) :
  (∀ i, i ∈ rows → length s ≤ i) → mask.take_rows rows s = [].
Proof.
  unfold mask.take_rows. induction rows as [|i rows IH]; intros Hge; [done|].
  cbn. rewrite (lookup_ge_None_2 s i) by (apply Hge; left).
  apply IH. intros j Hj. apply Hge. by right.
Qed.

(** Selecting by a mask is taking the rows the mask keeps. *)
Lemma select_take_rows {A} (m : list bool) (pre s : list A) :
  mask.take_rows (mask.row_numbers (length pre) m) (pre ++ s) = mask.select m s.
Proof.
  revert pre s. induction m as [|b m IH]; intros pre s; [done|].
  destruct s as [|x s].
  - cbn [mask.select]. destruct b; apply take_rows_beyond; intros i Hi;
      rewrite app_nil_r; by apply row_numbers_ge in Hi.
  - specialize (IH (pre ++ [x]) s).
    rewrite length_app, Nat.add_1_r, <-app_assoc in IH. cbn in IH.
    cbn. destruct b; [|exact IH].
    unfold mask.take_rows in *. cbn.
    rewrite lookup_app_r, Nat.sub_diag by lia. cbn. by rewrite IH.
Qed.

Lemma select_rows {A} (m : list bool) (s : list A) :
  mask.select m s = mask.take_rows (mask.row_numbers 0 m) s.
Proof. symmetry. apply (select_take_rows m [] s). Qed.

Lemma select_length {A} (m : list bool) (s : list A) :
  length m = length s →
  length (mask.select m s) = length (mask.row_numbers 0 m).
Proof.
  generalize 0. revert s. induction m as [|b m IH]; intros [|x s] k Hlen;
    try done.
  cbn. injection Hlen as Hlen. destruct b; cbn; by rewrite (IH s (S k)).
Qed.

Lemma row_numbers_split_length k (m : list bool) :
  length (mask.row_numbers k m) + length (mask.row_numbers k (map negb m))
  = length m.
Proof.
  revert k. induction m as [|b m IH]; intros k; [done|].
  cbn. specialize (IH (S k)). destruct b; cbn; lia.
Qed.

Lemma Qlt_bool_lt x y : Qlt_bool x y = true ↔ (x < y)%Q.
Proof. unfold Qlt_bool, Qlt. apply Z.ltb_lt. Qed.

Lemma at_or_after_not_before cutoff q : at_or_after cutoff q = negb (before cutoff q).
Proof.
  unfold at_or_after, before, Qle_bool, Qlt_bool.
  rewrite Z.leb_antisym. done.
Qed.

Lemma at_or_after_mask cutoff (ts : Series) :
  map (at_or_after cutoff) ts = map negb (map (before cutoff) ts).
Proof.
  rewrite map_map. apply map_ext. intros q. apply at_or_after_not_before.
Qed.

Lemma run_new (h : heap) (d : DataFrame) :
  ∃ l h', pd.new d h = (Return l, h') ∧ h ⊆ h' ∧ h' !! l = Some d ∧ h !! l = None.
Proof.
  assert (h !! fresh (dom h) = None) as Hnone by apply not_elem_of_dom, is_fresh.
  exists (fresh (dom h)), (<[fresh (dom h) := d]> h).
  split; [done|]. split; [by apply insert_subseteq|]. split; [apply lookup_insert_eq|done].
Qed.

Lemma run_getitem_mask (h : heap) X (d : DataFrame) m :
  h !! X = Some d →
  ∃ l h', getitem_mask X m h = (Return l, h') ∧ h ⊆ h'
          ∧ h' !! l = Some (mask.select m <$> d) ∧ h !! l = None.
Proof.
  intros HX. unfold getitem_mask, bind. rewrite (run_frame h X d HX). apply run_new.
Qed.

Lemma run_drop_one (h : heap) X (d : DataFrame) col s :
  h !! X = Some d → d !! col = Some s →
  ∃ l h', pd.drop X [col] h = (Return l, h') ∧ h ⊆ h'
          ∧ h' !! l = Some (delete col d) ∧ h !! l = None.
Proof.
  intros HX Hcol. unfold pd.drop, bind. rewrite (run_frame h X d HX).
  unfold pd.drop_columns. cbn [List.filter]. rewrite Hcol.
  rewrite (bool_decide_eq_true_2 (is_Some (Some s))) by by eexists.
  apply run_new.
Qed.

(** C6: [split_time_series_data] splits the rows at [cutoff_date].  Every
    row of the input goes to exactly one part, the rows before the cutoff
    to the training part and the rows at or after it to the test part; no
    row is repeated; the target column is taken out of the features of
    both parts and handed back on its own; the two parts together have as
    many rows as the input. *)
Theorem split_time_series_data_partitions (h : heap) (df : loc) (d : DataFrame)
    (cutoff_date : Z) (target_column : string) (pickup_hour target : Series) :
  h !! df = Some d →
  d !! "pickup_hour" = Some pickup_hour →
  d !! target_column = Some target →
  (∀ c s, d !! c = Some s → length s = length pickup_hour) →
  let train_rows := mask.row_numbers 0 (map (before cutoff_date) pickup_hour) in
  let test_rows := mask.row_numbers 0 (map (at_or_after cutoff_date) pickup_hour) in
  ∃ X_train y_train X_test y_test h' features_train features_test,
    split_time_series_data df cutoff_date target_column h
    = (Return (X_train, y_train, X_test, y_test), h')
    ∧ h' !! X_train = Some features_train
    ∧ h' !! X_test = Some features_test
    ∧ h' !! df = Some d
    ∧ (∀ i q, pickup_hour !! i = Some q →
         ((q < inject_Z cutoff_date)%Q ∧ i ∈ train_rows ∧ i ∉ test_rows)
         ∨ ((inject_Z cutoff_date <= q)%Q ∧ (i ∉ train_rows) ∧ i ∈ test_rows))
    ∧ (∀ i, i ∈ train_rows ∨ i ∈ test_rows → i < length pickup_hour)
    ∧ NoDup train_rows ∧ NoDup test_rows
    ∧ length train_rows + length test_rows = length pickup_hour
    ∧ features_train !! target_column = None
    ∧ features_test !! target_column = None
    ∧ y_train = mask.take_rows train_rows target
    ∧ y_test = mask.take_rows test_rows target
    ∧ length y_train = length train_rows
    ∧ length y_test = length test_rows
    ∧ (∀ c, c ≠ target_column →
         features_train !! c = (mask.take_rows train_rows <$> (d !! c))
         ∧ features_test !! c = (mask.take_rows test_rows <$> (d !! c))).
Proof.
  intros Hdf Hph Htarget Hrect train_rows test_rows.
  set (m1 := map (before cutoff_date) pickup_hour).
  set (m2 := map (at_or_after cutoff_date) pickup_hour).
  unfold split_time_series_data.
  unfold bind at 1. rewrite (run_getitem h df d Hdf), Hph. cbv beta iota. fold m1 m2.
  destruct (run_getitem_mask h df d m1 Hdf) as (l1 & h1 & Hrun1 & Hsub1 & Hl1 & _).
  unfold bind at 1. rewrite Hrun1. cbv beta iota.
  assert (h1 !! df = Some d) as Hdf1 by by eapply lookup_weaken.
  destruct (run_getitem_mask h1 df d m2 Hdf1) as (l2 & h2 & Hrun2 & Hsub2 & Hl2 & _).
  unfold bind at 1. rewrite Hrun2. cbv beta iota.
  assert (h2 !! l1 = Some (mask.select m1 <$> d)) as Hl1' by by eapply lookup_weaken.
  assert ((mask.select m1 <$> d) !! target_column = Some (mask.select m1 target)) as Ht1
    by by rewrite lookup_fmap, Htarget.
  assert ((mask.select m2 <$> d) !! target_column = Some (mask.select m2 target)) as Ht2
    by by rewrite lookup_fmap, Htarget.
  destruct (run_drop_one h2 l1 _ target_column _ Hl1' Ht1)
    as (l3 & h3 & Hrun3 & Hsub3 & Hl3 & _).
  unfold bind at 1. rewrite Hrun3. cbv beta iota.
  assert (h3 !! l1 = Some (mask.select m1 <$> d)) as Hl1'' by by eapply lookup_weaken.
  assert (h3 !! l2 = Some (mask.select m2 <$> d)) as Hl2' by by eapply lookup_weaken.
  unfold bind at 1. rewrite (run_getitem h3 l1 _ Hl1''), Ht1. cbv beta iota.
  destruct (run_drop_one h3 l2 _ target_column _ Hl2' Ht2)
    as (l4 & h4 & Hrun4 & Hsub4 & Hl4 & _).
  unfold bind at 1. rewrite Hrun4. cbv beta iota.
  assert (h4 !! l2 = Some (mask.select m2 <$> d)) as Hl2'' by by eapply lookup_weaken.
  unfold bind at 1. rewrite (run_getitem h4 l2 _ Hl2''), Ht2. cbv beta iota.
  eexists _, _, _, _, _, _, _. split; [reflexivity|].
  split; [by eapply lookup_weaken|]. split; [exact Hl4|].
  split; [by repeat (eapply lookup_weaken; [|eassumption])|].
  assert (m2 = map negb m1) as Hm2 by apply at_or_after_mask.
  assert (length m1 = length pickup_hour) as Hlen1 by apply length_map.
  assert (length m2 = length pickup_hour) as Hlen2 by apply length_map.
  split; [|split; [|split; [|split; [|split]]]].
  - intros i q Hq. unfold train_rows, test_rows. fold m1 m2.
    rewrite !row_numbers_elem.
    assert (m1 !! i = Some (before cutoff_date q)) as Hm1i
      by (unfold m1; by rewrite list_lookup_fmap, Hq).
    assert (m2 !! i = Some (at_or_after cutoff_date q)) as Hm2i
      by (unfold m2; by rewrite list_lookup_fmap, Hq).
    rewrite at_or_after_not_before in Hm2i.
    destruct (before cutoff_date q) eqn:Hb; cbn in Hm2i; [left|right].
    + split; [by apply Qlt_bool_lt|]. split; [by exists i|].
      intros (j & Hj & Hm). cbn in Hj. subst j. congruence.
    + split.
      { apply Qnot_lt_le. intros Hlt%Qlt_bool_lt. unfold before in Hb. congruence. }
      split; [|by exists i]. intros (j & Hj & Hm). cbn in Hj. subst j. congruence.
  - unfold train_rows, test_rows. fold m1 m2. intros i Hi.
    rewrite !row_numbers_elem in Hi.
    destruct Hi as [(j & -> & Hj)|(j & -> & Hj)]; apply lookup_lt_Some in Hj; cbn; lia.
  - apply row_numbers_NoDup.
  - apply row_numbers_NoDup.
  - unfold train_rows, test_rows. fold m1 m2.
    by rewrite Hm2, row_numbers_split_length.
  - split; [apply lookup_delete_eq|]. split; [apply lookup_delete_eq|].
    split; [apply select_rows|]. split; [apply select_rows|].
    split; [apply select_length; rewrite Hlen1; symmetry; by eapply Hrect|].
    split; [apply select_length; rewrite Hlen2; symmetry; by eapply Hrect|].
    intros c Hc. rewrite !lookup_delete_ne, !lookup_fmap by done.
    destruct (d !! c); cbn; by rewrite ?select_rows.
Qed.

Lemma sample_tabular_rectangular c (s : Series) :
  sample.tabular !! c = Some s → length s = 2.
Proof.
  intros H. unfold sample.tabular in H.
  apply elem_of_list_to_map_2 in H.
  repeat (apply elem_of_cons in H as [H|H]; [injection H as -> ->; reflexivity|]).
  by apply elem_of_nil in H.
Qed.

Lemma split_time_series_data_partitions_witness :
  ∃ X_train y_train X_test y_test h',
    split_time_series_data 1 (datetime.make 2023 9 1 11) "target"
      (sample.store sample.tabular)
    = (Return (X_train, y_train, X_test, y_test), h')
    ∧ y_train = [5]%Q ∧ y_test = [9]%Q
    ∧ (∃ features, h' !! X_train = Some features ∧ features !! "target" = None).
Proof.
  destruct (split_time_series_data_partitions (sample.store sample.tabular) 1
              sample.tabular (datetime.make 2023 9 1 11) "target" _ _
              eq_refl eq_refl eq_refl sample_tabular_rectangular)
    as (X_train & y_train & X_test & y_test & h' & ftr & fte & Hrun & Htr & _ & _
        & _ & _ & _ & _ & _ & Hnone & _ & Hytr & Hyte & _).
  exists X_train, y_train, X_test, y_test, h'.
  split; [exact Hrun|]. split; [exact Hytr|]. split; [exact Hyte|].
  exists ftr. split; [exact Htr | exact Hnone].
Defined.

(** ** Evaluation and logging *)

Section logging.
Context {Regressor : Type} (regressor_predict : Regressor → DataFrame → Series).

Lemma run_predict_bare (h : heap) X df r :
  h !! X = Some df →
  predict regressor_predict (Bare r) X h = (Return (regressor_predict r df), h).
Proof. intros HX. unfold predict, bind. by rewrite (run_frame h X df HX). Qed.

(** The pipeline writes the average into the caller's frame, builds its
    features in new objects and predicts from those. *)
Lemma run_predict_pipeline (h : heap) X df (a b c d ph ids : Series) r :
  h !! X = Some df →
  df !! "rides_t-168" = Some a → df !! "rides_t-336" = Some b →
  df !! "rides_t-504" = Some c → df !! "rides_t-672" = Some d →
  df !! "pickup_hour" = Some ph → df !! "pickup_location_id" = Some ids →
  ∃ h', predict regressor_predict (Pipeline r) X h
        = (Return (regressor_predict r (pipeline_features a b c d ph df)), h')
        ∧ h' !! X
          = Some (<["average_rides_last_4_weeks" := pd.mean_axis1 [a; b; c; d]]> df)
        ∧ ∀ l, l ∈ dom h → l ≠ X → h' !! l = h !! l.
Proof.
  intros HX Ha Hb Hc Hd Hph Hid.
  unfold predict, add_feature_average_rides_last_4_weeks.
  unfold bind at 1. rewrite (run_average_present h X df a b c d HX Ha Hb Hc Hd).
  cbv beta iota.
  set (df1 := <["average_rides_last_4_weeks" := pd.mean_axis1 [a; b; c; d]]> df).
  set (h1 := <[X := df1]> h).
  assert (h1 !! X = Some df1) as HX1 by apply lookup_insert_eq.
  unfold bind at 1. rewrite (run_transform h1 add_temporal_features X df1 HX1).
  cbv zeta.
  assert (df1 !! "pickup_hour" = Some ph) as -> by (unfold df1; by rewrite lookup_insert_ne).
  assert (df1 !! "pickup_location_id" = Some ids) as ->
    by (unfold df1; by rewrite lookup_insert_ne).
  cbv beta iota. unfold bind, pd.frame. rewrite lookup_insert_eq.
  fold (pipeline_features a b c d ph df).
  set (h2 := <[fresh (dom h1) := temporal_columns ph df1]> h1).
  assert (dom h1 = dom h) as Hdom1.
  { unfold h1. rewrite dom_insert_L. apply elem_of_dom_2 in HX. set_solver. }
  assert (X ≠ fresh (dom h1)) as Hne1.
  { intros Heq. apply (is_fresh (dom h1)). rewrite <-Heq, Hdom1. by eapply elem_of_dom_2. }
  assert (∀ l, l ∈ dom h → l ≠ fresh (dom h2)) as Hne2.
  { intros l Hl ->. apply (is_fresh (dom h2)). unfold h2 at 2.
    rewrite dom_insert_L, Hdom1. by apply elem_of_union_r. }
  eexists. split; [reflexivity|]. split.
  - rewrite lookup_insert_ne by (apply not_eq_sym, Hne2; by eapply elem_of_dom_2).
    unfold h2. rewrite lookup_insert_ne by done. exact HX1.
  - intros l Hl HlX.
    rewrite lookup_insert_ne by (apply not_eq_sym; by apply Hne2).
    unfold h2. rewrite lookup_insert_ne.
    + unfold h1. by rewrite lookup_insert_ne.
    + intros Heq. apply (is_fresh (dom h1)). rewrite Heq, Hdom1. exact Hl.
Qed.

Lemma predict_keeps_frame (h h' : heap) model X preds :
  predict regressor_predict model X h = (Return preds, h') → is_Some (h' !! X).
Proof.
  destruct (h !! X) as [df|] eqn:HX.
  - destruct model as [r|r].
    + rewrite (run_predict_bare h X df r HX). intros [= _ <-]. by eexists.
    + unfold predict, add_feature_average_rides_last_4_weeks, bind.
      rewrite (run_average_rides_last_4_weeks h X df HX).
      destruct (find _ _); [done|].
      set (df1 := <[_ := _]> df). set (h1 := <[X := df1]> h).
      assert (h1 !! X = Some df1) as HX1 by apply lookup_insert_eq.
      rewrite (run_transform h1 add_temporal_features X df1 HX1). cbv zeta.
      assert (X ∈ dom h1) as HXdom by by eapply elem_of_dom_2.
      assert (X ≠ fresh (dom h1)) as Hne1 by (intros Heq; apply (is_fresh (dom h1)); by rewrite <-Heq).
      destruct (df1 !! "pickup_hour") as [ph|]; [|done].
      destruct (df1 !! "pickup_location_id"); [|done].
      unfold pd.frame. rewrite lookup_insert_eq. intros [= _ <-].
      set (h2 := <[fresh (dom h1) := _]> h1).
      assert (X ∈ dom h2) as HXdom2 by (unfold h2; rewrite dom_insert_L; by apply elem_of_union_r).
      rewrite lookup_insert_ne.
      * unfold h2. rewrite lookup_insert_ne by done. by eexists.
      * intros Heq. apply (is_fresh (dom h2)). by rewrite Heq.
  - destruct model; unfold predict, add_feature_average_rides_last_4_weeks,
      average_rides_last_4_weeks, bind, pd.frame;
      rewrite ?last_4_weeks_columns_eq; cbn;
      unfold bind, pd.has_column, bind, pd.frame; by rewrite HX.
Qed.

End logging.

(** C7: in each modelling notebook the score handed to
    [log_model_to_mlflow], and so the metric of the run the tracker gains,
    is [mean_absolute_error(y_test, predictions)], where [predictions] is
    what the logged model predicts for the test features: the XGBoost and
    LightGBM notebooks log the regressor fitted in the same cell, the
    hyper-parameter notebook logs [best_model]. *)
Theorem logged_score_is_test_mae {Regressor : Type}
    (regressor_predict : Regressor → DataFrame → Series)
    (XGBRegressor_fit LGBMRegressor_fit : DataFrame → Series → Regressor)
    (h h1 : heap) (X_train_only_numeric X_test_only_numeric X_test : loc)
    (train test : DataFrame) (y_train y_test predictions : Series)
    (best_model : Estimator Regressor) (mlflow : list (Run Regressor)) :
  h !! X_train_only_numeric = Some train →
  h !! X_test_only_numeric = Some test →
  predict regressor_predict best_model X_test h = (Return predictions, h1) →
  (∃ model preds,
     model = Bare (XGBRegressor_fit train y_train)
     ∧ predict regressor_predict model X_test_only_numeric h = (Return preds, h)
     ∧ xgboost_cell regressor_predict XGBRegressor_fit
         X_train_only_numeric y_train X_test_only_numeric y_test mlflow h
       = (Return (mlflow ++ [mkRun "XGBoost" model test "mean_absolute_error"
                               (mean_absolute_error y_test preds)]), h))
  ∧ (∃ model preds,
       model = Bare (LGBMRegressor_fit train y_train)
       ∧ predict regressor_predict model X_test_only_numeric h = (Return preds, h)
       ∧ lightgbm_cell regressor_predict LGBMRegressor_fit
           X_train_only_numeric y_train X_test_only_numeric y_test mlflow h
         = (Return (mlflow ++ [mkRun "LGBMRegressor" model test "mean_absolute_error"
                                 (mean_absolute_error y_test preds)]), h))
  ∧ (∃ example,
       h1 !! X_test = Some example
       ∧ hyper_cell regressor_predict best_model X_test y_test mlflow h
         = (Return (mlflow ++ [mkRun "LGBMRegressorHyper" best_model example
                                 "mean_absolute_error"
                                 (mean_absolute_error y_test predictions)]), h1)).
Proof.
  intros Htrain Htest Hbest. split; [|split].
  - eexists _, _. split; [reflexivity|].
    split; [by apply run_predict_bare|].
    unfold xgboost_cell. unfold bind at 1.
    rewrite (run_frame h _ train Htrain). cbv beta iota zeta.
    unfold bind at 1. rewrite (run_predict_bare _ h _ test _ Htest). cbv beta iota.
    unfold log_model_to_mlflow, set_mlflow_tracking, bind.
    by rewrite (run_frame h _ test Htest).
  - eexists _, _. split; [reflexivity|].
    split; [by apply run_predict_bare|].
    unfold lightgbm_cell. unfold bind at 1.
    rewrite (run_frame h _ train Htrain). cbv beta iota zeta.
    unfold bind at 1. rewrite (run_predict_bare _ h _ test _ Htest). cbv beta iota.
    unfold log_model_to_mlflow, set_mlflow_tracking, bind.
    by rewrite (run_frame h _ test Htest).
  - destruct (predict_keeps_frame _ _ _ _ _ _ Hbest) as [example Hex].
    exists example. split; [exact Hex|].
    unfold hyper_cell. unfold bind at 1. rewrite Hbest. cbv beta iota zeta.
    unfold log_model_to_mlflow, set_mlflow_tracking, bind.
    by rewrite (run_frame h1 _ example Hex).
Qed.

Lemma logged_score_is_test_mae_witness :
  ∃ predictions h1 example,
    predict sample.last_week (Pipeline ()) 1 (sample.store sample.tabular)
    = (Return predictions, h1)
    ∧ hyper_cell sample.last_week (Pipeline ()) 1 [5; 9]%Q [] (sample.store sample.tabular)
      = (Return [mkRun "LGBMRegressorHyper" (Pipeline ()) example "mean_absolute_error"
                   (mean_absolute_error [5; 9]%Q predictions)], h1).
Proof.
  destruct (run_predict_pipeline sample.last_week (sample.store sample.tabular) 1
              sample.tabular _ _ _ _ _ _ ()
              eq_refl eq_refl eq_refl eq_refl eq_refl eq_refl eq_refl)
    as (h1 & Hrun & _).
  destruct (logged_score_is_test_mae sample.last_week sample.fit_last_week
              sample.fit_last_week (sample.store sample.tabular) h1 1 1 1
              sample.tabular sample.tabular [5; 9]%Q [5; 9]%Q _ (Pipeline ()) []
              eq_refl eq_refl Hrun) as (_ & _ & example & _ & Hcell).
  eexists _, h1, example. split; [exact Hrun | exact Hcell].
Defined.

(** * Further properties *)

(** ** The calendar is monotone *)

Section calendar_facts.
Import calendar.
Local Open Scope Z_scope.

Lemma doe_bound d : 0 ≤ doe_of d ≤ 146096.
Proof. unfold doe_of, era_of. Z.to_euclidean_division_equations; lia. Qed.

Lemma yoe_mono a b : 0 ≤ a ≤ b → b ≤ 146096 → yoe_of a ≤ yoe_of b.
Proof.
  intros. unfold yoe_of. apply Z.div_le_mono; [lia|].
  Z.to_euclidean_division_equations; lia.
Qed.

Lemma yoe_bound a : 0 ≤ a ≤ 146096 → 0 ≤ yoe_of a ≤ 399.
Proof. intros. unfold yoe_of. Z.to_euclidean_division_equations; lia. Qed.

Lemma doy_bound a : 0 ≤ a ≤ 146096 → 0 ≤ doy_of a ≤ 365.
Proof. intros. unfold doy_of, yoe_of. Z.to_euclidean_division_equations; lia. Qed.

Lemma mp_bound a : 0 ≤ a ≤ 146096 → 0 ≤ mp_of a ≤ 11.
Proof.
  intros H. pose proof (doy_bound a H). unfold mp_of.
  Z.to_euclidean_division_equations; lia.
Qed.

Lemma month_count_civil d :
  12 * (datetime.civil d).1.1 + (datetime.civil d).1.2 = month_count d
  ∧ 1 ≤ (datetime.civil d).1.2 ≤ 12.
Proof.
  unfold datetime.civil, month_count. cbv zeta. cbn [fst snd].
  fold (era_of d). fold (doe_of d). fold (yoe_of (doe_of d)).
  fold (doy_of (doe_of d)). fold (mp_of (doe_of d)).
  pose proof (mp_bound _ (doe_bound d)).
  destruct (mp_of (doe_of d) <? 10) eqn:E.
  - apply Z.ltb_lt in E. assert ((mp_of (doe_of d) + 3 <=? 2) = false) as -> by lia. lia.
  - apply Z.ltb_ge in E. assert ((mp_of (doe_of d) - 9 <=? 2) = true) as -> by lia. lia.
Qed.

Lemma month_count_mono d1 d2 : d1 ≤ d2 → month_count d1 ≤ month_count d2.
Proof.
  intros Hle. unfold month_count.
  pose proof (doe_bound d1) as B1. pose proof (doe_bound d2) as B2.
  pose proof (yoe_bound _ B1). pose proof (yoe_bound _ B2).
  pose proof (mp_bound _ B1). pose proof (mp_bound _ B2).
  assert (era_of d1 ≤ era_of d2) as He
    by (unfold era_of; apply Z.div_le_mono; lia).
  destruct (Z.eq_dec (era_of d1) (era_of d2)) as [Heq|Hne]; [|lia].
  assert (doe_of d1 ≤ doe_of d2) as Hdoe by (unfold doe_of; lia).
  pose proof (yoe_mono (doe_of d1) (doe_of d2) ltac:(lia) ltac:(lia)) as Hy.
  destruct (Z.eq_dec (yoe_of (doe_of d1)) (yoe_of (doe_of d2))) as [Hyeq|Hyne]; [|lia].
  assert (mp_of (doe_of d1) ≤ mp_of (doe_of d2)); [|lia].
  unfold mp_of. apply Z.div_le_mono; [lia|]. unfold doy_of. rewrite Hyeq. lia.
Qed.

Lemma month_range t : 1 ≤ datetime.month t ≤ 12.
Proof. unfold datetime.month. apply month_count_civil. Qed.

(** A later timestamp is in the same month or in a later one. *)
Lemma year_month_mono t1 t2 :
  t1 ≤ t2 →
  12 * datetime.year t1 + datetime.month t1 ≤ 12 * datetime.year t2 + datetime.month t2.
Proof.
  intros Hle. unfold datetime.year, datetime.month.
  rewrite (proj1 (month_count_civil (datetime.days t1))).
  rewrite (proj1 (month_count_civil (datetime.days t2))).
  apply month_count_mono. unfold datetime.days.
  apply Z.div_le_mono; [|done]. unfold datetime.NS_PER_DAY, datetime.NS_PER_HOUR. lia.
Qed.

(** Two timestamps of one month have between them only that month. *)
Lemma between_same_month t1 t t2 :
  t1 ≤ t → t ≤ t2 →
  datetime.year t1 = datetime.year t2 → datetime.month t1 = datetime.month t2 →
  datetime.year t = datetime.year t1 ∧ datetime.month t = datetime.month t1.
Proof.
  intros H1 H2 Hy Hm.
  pose proof (year_month_mono t1 t H1). pose proof (year_month_mono t t2 H2).
  pose proof (month_range t). pose proof (month_range t1). lia.
Qed.

End calendar_facts.

(** ** The batch fetch: which rides come back *)

Lemma elem_of_sorted_shifted delta l r' :
  r' ∈ sort_values (shift_pickup_datetime delta l) ↔
  ∃ r, r ∈ l ∧ r' = mkRide (pickup_datetime r + delta)%Z (pickup_location_id r).
Proof.
  rewrite sort_values_Permutation. unfold shift_pickup_datetime.
  rewrite list_elem_of_fmap. naive_solver.
Qed.

Section fetch_facts.
Context (fromisoformat : string → option Z).
Context (load_and_process_taxi_data : Z → list Z → list Ride).
Local Open Scope Z_scope.

Lemma fetch_value from_date to_date f t :
  parse_date fromisoformat from_date = inr f →
  parse_date fromisoformat to_date = inr t →
  f < t →
  fetch_batch_raw_data fromisoformat load_and_process_taxi_data from_date to_date
  = inr (sort_values
           (shift_pickup_datetime (datetime.timedelta_weeks 52)
              (selected_rides load_and_process_taxi_data
                 (f - datetime.timedelta_weeks 52) (t - datetime.timedelta_weeks 52)))).
Proof.
  intros Hf Ht Hlt. unfold fetch_batch_raw_data. rewrite Hf, Ht.
  assert ((f >=? t) = false) as -> by lia. reflexivity.
Qed.

(** X2: the rides returned are the rides of the monthly file of the
    shifted [from_date] picked up at or after that date and, when the
    shifted [to_date] falls in a month of another number, the rides of its
    monthly file picked up before it, each moved forward by 52 weeks with
    its station unchanged; sorting loses none of them and adds none. *)
Theorem fetch_returns_the_selected_rides (from_date to_date : date_arg) (f t : Z) :
  parse_date fromisoformat from_date = inr f →
  parse_date fromisoformat to_date = inr t →
  f < t →
  let historical_from_date := f - datetime.timedelta_weeks 52 in
  let historical_to_date := t - datetime.timedelta_weeks 52 in
  let file_from :=
    load_and_process_taxi_data (datetime.year historical_from_date)
                               [datetime.month historical_from_date] in
  let file_to :=
    load_and_process_taxi_data (datetime.year historical_to_date)
                               [datetime.month historical_to_date] in
  ∃ rides,
    fetch_batch_raw_data fromisoformat load_and_process_taxi_data from_date to_date
    = inr rides
    ∧ (∀ r', r' ∈ rides ↔
         ∃ r, r' = mkRide (pickup_datetime r + datetime.timedelta_weeks 52)
                          (pickup_location_id r)
              ∧ ((r ∈ file_from ∧ historical_from_date ≤ pickup_datetime r)
                 ∨ (datetime.month historical_to_date ≠ datetime.month historical_from_date
                    ∧ r ∈ file_to ∧ pickup_datetime r < historical_to_date)))
    ∧ length rides
      = length (selected_rides load_and_process_taxi_data
                  historical_from_date historical_to_date).
Proof.
  intros Hf Ht Hlt hf ht file_from file_to.
  rewrite (fetch_value _ _ f t Hf Ht Hlt). eexists. split; [reflexivity|]. split.
  - intros r'. rewrite elem_of_sorted_shifted. fold hf ht. unfold selected_rides.
    fold file_from file_to.
    destruct (datetime.month ht =? datetime.month hf) eqn:Hm; cbn [negb].
    + apply Z.eqb_eq in Hm. setoid_rewrite list_elem_of_filter. naive_solver.
    + apply Z.eqb_neq in Hm. setoid_rewrite elem_of_app.
      setoid_rewrite list_elem_of_filter. naive_solver.
  - rewrite sort_values_Permutation. unfold shift_pickup_datetime. by rewrite length_map.
Qed.

(** X3: when the two shifted dates fall in months of different numbers
    and each monthly file holds the rides of its month, every ride
    returned has its [pickup_datetime] in the window asked for:
    [from_date <= pickup_datetime < to_date]. *)
Theorem fetch_two_months_within_window (from_date to_date : date_arg) (f t : Z) :
  monthly_files load_and_process_taxi_data →
  parse_date fromisoformat from_date = inr f →
  parse_date fromisoformat to_date = inr t →
  f < t →
  datetime.month (t - datetime.timedelta_weeks 52)
  ≠ datetime.month (f - datetime.timedelta_weeks 52) →
  ∃ rides,
    fetch_batch_raw_data fromisoformat load_and_process_taxi_data from_date to_date
    = inr rides
    ∧ ∀ r, r ∈ rides → f ≤ pickup_datetime r < t.
Proof.
  intros Hfiles Hf Ht Hlt Hmonths.
  rewrite (fetch_value _ _ f t Hf Ht Hlt). eexists. split; [reflexivity|].
  intros r' (r & Hr & ->)%elem_of_sorted_shifted. cbn [pickup_datetime].
  set (hf := f - datetime.timedelta_weeks 52) in *.
  set (ht := t - datetime.timedelta_weeks 52) in *.
  assert (hf < ht) as Hh by (unfold hf, ht; lia).
  pose proof (year_month_mono hf ht ltac:(lia)) as Hmono.
  pose proof (month_range hf). pose proof (month_range ht).
  unfold selected_rides in Hr.
  apply Z.eqb_neq in Hmonths. rewrite Hmonths in Hr. cbn [negb] in Hr.
  apply Z.eqb_neq in Hmonths.
  apply elem_of_app in Hr as [Hr|Hr]; apply list_elem_of_filter in Hr as [Hdt Hin];
    apply Hfiles in Hin as [Hy Hm].
  - enough (pickup_datetime r < ht) by (unfold hf, ht in *; lia).
    destruct (Z.lt_ge_cases (pickup_datetime r) ht) as [|Hge]; [done|].
    pose proof (year_month_mono ht (pickup_datetime r) Hge). lia.
  - enough (hf ≤ pickup_datetime r) by (unfold hf, ht in *; lia).
    destruct (Z.le_gt_cases hf (pickup_datetime r)) as [|Hgt]; [done|].
    pose proof (year_month_mono (pickup_datetime r) hf ltac:(lia)). lia.
Qed.

(** X4: when the two shifted dates fall in months of one number and the
    monthly file holds the rides of its month, every ride returned is at
    or after [from_date] and comes from the calendar month of the shifted
    [from_date]: what is returned beyond [to_date] stops with that
    month. *)
Theorem fetch_same_month_stays_in_month (from_date to_date : date_arg) (f t : Z) :
  monthly_files load_and_process_taxi_data →
  parse_date fromisoformat from_date = inr f →
  parse_date fromisoformat to_date = inr t →
  f < t →
  datetime.month (t - datetime.timedelta_weeks 52)
  = datetime.month (f - datetime.timedelta_weeks 52) →
  ∃ rides,
    fetch_batch_raw_data fromisoformat load_and_process_taxi_data from_date to_date
    = inr rides
    ∧ ∀ r, r ∈ rides →
        f ≤ pickup_datetime r
        ∧ datetime.year (pickup_datetime r - datetime.timedelta_weeks 52)
          = datetime.year (f - datetime.timedelta_weeks 52)
        ∧ datetime.month (pickup_datetime r - datetime.timedelta_weeks 52)
          = datetime.month (f - datetime.timedelta_weeks 52).
Proof.
  intros Hfiles Hf Ht Hlt Hmonths.
  rewrite (fetch_value _ _ f t Hf Ht Hlt). eexists. split; [reflexivity|].
  intros r' (r & Hr & ->)%elem_of_sorted_shifted. cbn [pickup_datetime].
  unfold selected_rides in Hr.
  apply Z.eqb_eq in Hmonths. rewrite Hmonths in Hr. cbn [negb] in Hr.
  apply list_elem_of_filter in Hr as [Hdt Hin]. apply Hfiles in Hin as [Hy Hm].
  replace (pickup_datetime r + datetime.timedelta_weeks 52 - datetime.timedelta_weeks 52)
    with (pickup_datetime r) by lia.
  repeat split; [lia|done|done].
Qed.

End fetch_facts.

Lemma sample_taxi_files_monthly : monthly_files sample.taxi_files.
Proof.
  intros year month r. unfold sample.taxi_files. case_bool_decide as Hfile.
  - destruct Hfile as [-> [= ->]]. unfold sample.march_2024.
    intros Hr. repeat (apply elem_of_cons in Hr as [->|Hr]; [by vm_compute|]).
    by apply elem_of_nil in Hr.
  - by intros ?%elem_of_nil.
Qed.

Lemma fetch_returns_the_selected_rides_witness :
  (sample.february_date < sample.to_date)%Z
  ∧ ∃ rides,
      fetch_batch_raw_data sample.no_iso_parser sample.taxi_files
        (Datetime sample.february_date) (Datetime sample.to_date) = inr rides
      ∧ length rides
        = length (selected_rides sample.taxi_files
                    (sample.february_date - datetime.timedelta_weeks 52)
                    (sample.to_date - datetime.timedelta_weeks 52)).
Proof.
  split; [reflexivity|].
  destruct (fetch_returns_the_selected_rides sample.no_iso_parser sample.taxi_files
              (Datetime sample.february_date) (Datetime sample.to_date)
              sample.february_date sample.to_date eq_refl eq_refl eq_refl)
    as (rides & Hrun & _ & Hlen).
  exists rides. split; [exact Hrun | exact Hlen].
Defined.

Lemma fetch_two_months_within_window_witness :
  (sample.february_date < sample.to_date)%Z
  ∧ datetime.month (sample.to_date - datetime.timedelta_weeks 52)
    ≠ datetime.month (sample.february_date - datetime.timedelta_weeks 52)
  ∧ ∃ rides,
      fetch_batch_raw_data sample.no_iso_parser sample.taxi_files
        (Datetime sample.february_date) (Datetime sample.to_date) = inr rides
      ∧ ∀ r, r ∈ rides →
          (sample.february_date ≤ pickup_datetime r < sample.to_date)%Z.
Proof.
  assert (datetime.month (sample.to_date - datetime.timedelta_weeks 52)
          ≠ datetime.month (sample.february_date - datetime.timedelta_weeks 52))
    as Hmonths by (vm_compute; discriminate).
  split; [reflexivity|]. split; [exact Hmonths|].
  exact (fetch_two_months_within_window sample.no_iso_parser sample.taxi_files
           (Datetime sample.february_date) (Datetime sample.to_date)
           sample.february_date sample.to_date
           sample_taxi_files_monthly eq_refl eq_refl eq_refl Hmonths).
Defined.

Lemma fetch_same_month_stays_in_month_witness :
  (sample.from_date < sample.to_date)%Z
  ∧ ∃ rides,
      fetch_batch_raw_data sample.no_iso_parser sample.taxi_files
        (Datetime sample.from_date) (Datetime sample.to_date) = inr rides
      ∧ ∀ r, r ∈ rides →
          (sample.from_date ≤ pickup_datetime r)%Z
          ∧ datetime.year (pickup_datetime r - datetime.timedelta_weeks 52)
            = datetime.year (sample.from_date - datetime.timedelta_weeks 52)
          ∧ datetime.month (pickup_datetime r - datetime.timedelta_weeks 52)
            = datetime.month (sample.from_date - datetime.timedelta_weeks 52).
Proof.
  split; [reflexivity|].
  exact (fetch_same_month_stays_in_month sample.no_iso_parser sample.taxi_files
           (Datetime sample.from_date) (Datetime sample.to_date)
           sample.from_date sample.to_date
           sample_taxi_files_monthly eq_refl eq_refl eq_refl eq_refl).
Defined.

(** ** The rolling average: calling it again, and failing *)

Lemma find_first {A} (f : A → bool) (l : list A) (x : A) :
  find f l = Some x →
  ∃ front back, l = front ++ x :: back ∧ f x = true ∧ ∀ y, y ∈ front → f y = false.
Proof.
  induction l as [|a l IH]; [done|]. cbn. destruct (f a) eqn:Ha.
  - intros [= ->]. exists [], l. split; [done|]. split; [done|]. by intros y ?%elem_of_nil.
  - intros (front & back & -> & Hx & Hfront)%IH. exists (a :: front), back.
    split; [done|]. split; [done|]. intros y [->|Hy]%elem_of_cons; auto.
Qed.

(** X5: a second call changes nothing: the frame already holds the
    averages the call would write. *)
Theorem average_twice_is_once (h : heap) (X : loc) (df : DataFrame)
    (a b c d : Series) :
  h !! X = Some df →
  df !! "rides_t-168" = Some a → df !! "rides_t-336" = Some b →
  df !! "rides_t-504" = Some c → df !! "rides_t-672" = Some d →
  ∃ h1,
    average_rides_last_4_weeks X h = (Return X, h1)
    ∧ average_rides_last_4_weeks X h1 = (Return X, h1).
Proof.
  intros HX Ha Hb Hc Hd.
  rewrite (run_average_present h X df a b c d HX Ha Hb Hc Hd).
  eexists. split; [reflexivity|].
  set (df1 := <["average_rides_last_4_weeks" := pd.mean_axis1 [a; b; c; d]]> df).
  rewrite (run_average_present (<[X := df1]> h) X df1 a b c d);
    try (unfold df1; by rewrite lookup_insert_ne); [|apply lookup_insert_eq].
  unfold df1. by rewrite !insert_insert_eq.
Qed.

Lemma average_twice_is_once_witness :
  ∃ h1,
    average_rides_last_4_weeks 1 (sample.store sample.tabular) = (Return 1%positive, h1)
    ∧ average_rides_last_4_weeks 1 h1 = (Return 1%positive, h1).
Proof.
  exact (average_twice_is_once (sample.store sample.tabular) 1 sample.tabular
           [4; 8]%Q [2; 6]%Q [3; 1]%Q [7; 5]%Q
           eq_refl eq_refl eq_refl eq_refl eq_refl).
Defined.

(** X6: when a lag column is absent the call raises before it writes:
    the store is left as it was, and the message names the first absent
    column in the order one, two, three, four weeks. *)
Theorem average_failure_names_first_absent (h : heap) (X : loc) (df : DataFrame)
    (c0 : string) :
  h !! X = Some df →
  c0 ∈ ["rides_t-168"; "rides_t-336"; "rides_t-504"; "rides_t-672"] →
  df !! c0 = None →
  ∃ front c back,
    ["rides_t-168"; "rides_t-336"; "rides_t-504"; "rides_t-672"] = front ++ c :: back
    ∧ (∀ c', c' ∈ front → is_Some (df !! c'))
    ∧ df !! c = None
    ∧ average_rides_last_4_weeks X h
      = (Raise (ValueError ("Missing required column: " +:+ c)), h).
Proof.
  intros HX Hin Hnone. rewrite (run_average_rides_last_4_weeks h X df HX).
  rewrite last_4_weeks_columns_eq.
  destruct (find _ _) as [c|] eqn:Hfind.
  - apply find_first in Hfind as (front & back & Hlist & Hc & Hfront).
    exists front, c, back. split; [exact Hlist|].
    split; [|split; [by apply absent_true|done]].
    intros c' Hc'. by apply absent_false, Hfront.
  - apply list_elem_of_In in Hin. apply (find_none _ _ Hfind) in Hin.
    apply absent_false in Hin as [s Hs]. congruence.
Qed.

Lemma average_failure_names_first_absent_witness :
  average_rides_last_4_weeks 1 (sample.store sample.no_third_week)
  = (Raise (ValueError "Missing required column: rides_t-504"),
     sample.store sample.no_third_week).
Proof.
  destruct (average_failure_names_first_absent (sample.store sample.no_third_week) 1
              sample.no_third_week "rides_t-504" eq_refl
              ltac:(do 2 apply list_elem_of_further; apply list_elem_of_here) eq_refl)
    as (front & c & back & Hlist & Hfront & Hc & Hrun).
  destruct front as [|c1 [|c2 [|c3 [|c4 front]]]]; injection Hlist as <-; subst.
  - discriminate Hc.
  - discriminate Hc.
  - exact Hrun.
  - destruct (Hfront "rides_t-504") as [s Hs]; [|discriminate Hs].
    do 2 apply list_elem_of_further. apply list_elem_of_here.
  - by destruct front.
Defined.

(** ** The extractor and the pipeline: composing and failing *)

(** X7: [transform] cannot be applied to its own output: the frame it
    returns has no [pickup_hour] column any more, so a second pass raises
    [KeyError]. *)
Theorem transform_twice_raises (h : heap) (X : loc) (df : DataFrame)
    (self : TemporalFeatureEngineer.t) :
  h !! X = Some df →
  is_Some (df !! "pickup_hour") →
  is_Some (df !! "pickup_location_id") →
  ∃ R h1 h2,
    TemporalFeatureEngineer.transform self X h = (Return R, h1)
    ∧ TemporalFeatureEngineer.transform self R h1 = (Raise (KeyError "pickup_hour"), h2).
Proof.
  intros HX [ph Hph] [ids Hid]. rewrite (run_transform h self X df HX). cbv zeta.
  rewrite Hph, Hid. eexists _, _, _. split; [reflexivity|].
  erewrite run_transform by apply lookup_insert_eq. cbv zeta.
  by rewrite lookup_delete_ne, lookup_delete_eq.
Qed.

Lemma transform_twice_raises_witness :
  ∃ R h1 h2,
    TemporalFeatureEngineer.transform add_temporal_features 1
      (sample.store sample.tabular) = (Return R, h1)
    ∧ TemporalFeatureEngineer.transform add_temporal_features R h1
      = (Raise (KeyError "pickup_hour"), h2).
Proof.
  exact (transform_twice_raises (sample.store sample.tabular) 1 sample.tabular
           add_temporal_features eq_refl (ex_intro _ _ eq_refl) (ex_intro _ _ eq_refl)).
Defined.

(** X8: the frame [transform] returns has the columns of its input
    without [pickup_hour] and [pickup_location_id] and with [hour] and
    [day_of_week]; when the input has no column of these two names, the
    number of columns is the same going out as coming in. *)
Theorem transform_columns (h : heap) (X : loc) (df : DataFrame)
    (self : TemporalFeatureEngineer.t) :
  h !! X = Some df →
  is_Some (df !! "pickup_hour") →
  is_Some (df !! "pickup_location_id") →
  ∃ R h' df',
    TemporalFeatureEngineer.transform self X h = (Return R, h')
    ∧ h' !! R = Some df'
    ∧ dom df' = ({["hour"; "day_of_week"]} ∪ dom df)
                ∖ {["pickup_hour"; "pickup_location_id"]}
    ∧ (df !! "hour" = None → df !! "day_of_week" = None → size df' = size df).
Proof.
  intros HX [ph Hph] [ids Hid]. rewrite (run_transform h self X df HX). cbv zeta.
  rewrite Hph, Hid. eexists _, _, _. split; [reflexivity|].
  split; [apply lookup_insert_eq|]. unfold temporal_columns. split.
  - rewrite !dom_delete_L, !dom_insert_L. set_solver.
  - intros Hh Hd.
    rewrite map_size_delete_Some
      by (by rewrite lookup_delete_ne, !lookup_insert_ne, Hid).
    rewrite map_size_delete_Some by (by rewrite !lookup_insert_ne, Hph).
    rewrite map_size_insert_None by (by rewrite lookup_insert_ne).
    by rewrite map_size_insert_None.
Qed.

Lemma transform_columns_witness :
  ∃ R h' df',
    TemporalFeatureEngineer.transform add_temporal_features 1
      (sample.store sample.tabular) = (Return R, h')
    ∧ h' !! R = Some df'
    ∧ size df' = size sample.tabular.
Proof.
  destruct (transform_columns (sample.store sample.tabular) 1 sample.tabular
              add_temporal_features eq_refl (ex_intro _ _ eq_refl) (ex_intro _ _ eq_refl))
    as (R & h' & df' & Hrun & HR & _ & Hsize).
  exists R, h', df'. split; [exact Hrun|]. split; [exact HR|].
  exact (Hsize eq_refl eq_refl).
Defined.

Section pipeline_facts.
Context {Regressor : Type} (regressor_predict : Regressor → DataFrame → Series).

Lemma pipeline_features_again (a b c d ph : Series) (df : DataFrame) :
  pipeline_features a b c d ph
    (<["average_rides_last_4_weeks" := pd.mean_axis1 [a; b; c; d]]> df)
  = pipeline_features a b c d ph df.
Proof. unfold pipeline_features. by rewrite insert_insert_eq. Qed.

(** X9: the pipeline predicts the same for a frame it has already
    predicted for: the average its first pass wrote into the caller's
    frame is written again with the same values, and the features handed
    to the regressor are the same. *)
Theorem pipeline_predict_repeatable (h : heap) (X : loc) (df : DataFrame)
    (a b c d ph ids : Series) (r : Regressor) :
  h !! X = Some df →
  df !! "rides_t-168" = Some a → df !! "rides_t-336" = Some b →
  df !! "rides_t-504" = Some c → df !! "rides_t-672" = Some d →
  df !! "pickup_hour" = Some ph → df !! "pickup_location_id" = Some ids →
  ∃ predictions h1 h2,
    predict regressor_predict (Pipeline r) X h = (Return predictions, h1)
    ∧ predict regressor_predict (Pipeline r) X h1 = (Return predictions, h2)
    ∧ h2 !! X = h1 !! X.
Proof.
  intros HX Ha Hb Hc Hd Hph Hid.
  destruct (run_predict_pipeline regressor_predict h X df a b c d ph ids r
              HX Ha Hb Hc Hd Hph Hid) as (h1 & Hrun1 & HX1 & _).
  destruct (run_predict_pipeline regressor_predict h1 X _ a b c d ph ids r HX1)
    as (h2 & Hrun2 & HX2 & _); try by rewrite lookup_insert_ne.
  rewrite pipeline_features_again in Hrun2. rewrite insert_insert_eq in HX2.
  eexists _, h1, h2. split; [exact Hrun1|]. split; [exact Hrun2|]. by rewrite HX1, HX2.
Qed.

(** X10: in the hyper-parameter notebook the score the last cell logs is
    the test error the search cell has printed: the search cell's
    prediction leaves the average in [X_test], and the last cell, which
    predicts again from that frame, finds the same error. *)
Theorem hyper_cell_logs_the_printed_mae (h : heap) (X_test : loc) (df : DataFrame)
    (a b c d ph ids y_test : Series) (r : Regressor) (mlflow : list (Run Regressor)) :
  h !! X_test = Some df →
  df !! "rides_t-168" = Some a → df !! "rides_t-336" = Some b →
  df !! "rides_t-504" = Some c → df !! "rides_t-672" = Some d →
  df !! "pickup_hour" = Some ph → df !! "pickup_location_id" = Some ids →
  ∃ mae h1 h2 example,
    search_evaluation regressor_predict (Pipeline r) X_test y_test h = (Return mae, h1)
    ∧ hyper_cell regressor_predict (Pipeline r) X_test y_test mlflow h1
      = (Return (mlflow ++ [mkRun "LGBMRegressorHyper" (Pipeline r) example
                              "mean_absolute_error" mae]), h2)
    ∧ example = <["average_rides_last_4_weeks" := pd.mean_axis1 [a; b; c; d]]> df.
Proof.
  intros HX Ha Hb Hc Hd Hph Hid.
  destruct (run_predict_pipeline regressor_predict h X_test df a b c d ph ids r
              HX Ha Hb Hc Hd Hph Hid) as (h1 & Hrun1 & HX1 & _).
  destruct (run_predict_pipeline regressor_predict h1 X_test _ a b c d ph ids r HX1)
    as (h2 & Hrun2 & HX2 & _); try by rewrite lookup_insert_ne.
  rewrite pipeline_features_again in Hrun2. rewrite insert_insert_eq in HX2.
  eexists _, h1, h2, _. split; [|split; [|reflexivity]].
  - unfold search_evaluation, bind. by rewrite Hrun1.
  - unfold hyper_cell. unfold bind at 1. rewrite Hrun2. cbv beta iota zeta.
    unfold log_model_to_mlflow, set_mlflow_tracking, bind.
    by rewrite (run_frame h2 X_test _ HX2).
Qed.

(** X11: a pipeline prediction that fails in its second step has already
    changed the caller's frame: on a frame with the four lag columns and
    no [pickup_hour], the call raises [KeyError] and leaves the frame with
    the column [average_rides_last_4_weeks] written into it. *)
Theorem pipeline_failure_keeps_the_average (h : heap) (X : loc) (df : DataFrame)
    (a b c d : Series) (r : Regressor) :
  h !! X = Some df →
  df !! "rides_t-168" = Some a → df !! "rides_t-336" = Some b →
  df !! "rides_t-504" = Some c → df !! "rides_t-672" = Some d →
  df !! "pickup_hour" = None →
  ∃ h',
    predict regressor_predict (Pipeline r) X h = (Raise (KeyError "pickup_hour"), h')
    ∧ h' !! X
      = Some (<["average_rides_last_4_weeks" := pd.mean_axis1 [a; b; c; d]]> df).
Proof.
  intros HX Ha Hb Hc Hd Hph.
  unfold predict, add_feature_average_rides_last_4_weeks.
  unfold bind at 1. rewrite (run_average_present h X df a b c d HX Ha Hb Hc Hd).
  cbv beta iota.
  set (df1 := <["average_rides_last_4_weeks" := pd.mean_axis1 [a; b; c; d]]> df).
  set (h1 := <[X := df1]> h).
  assert (h1 !! X = Some df1) as HX1 by apply lookup_insert_eq.
  unfold bind at 1. rewrite (run_transform h1 add_temporal_features X df1 HX1).
  cbv zeta.
  assert (df1 !! "pickup_hour" = None) as -> by (unfold df1; by rewrite lookup_insert_ne).
  eexists. split; [reflexivity|].
  rewrite lookup_insert_ne; [exact HX1|].
  intros Heq. apply (is_fresh (dom h1)). rewrite Heq. by eapply elem_of_dom_2.
Qed.

End pipeline_facts.

Lemma pipeline_predict_repeatable_witness :
  ∃ predictions h1 h2,
    predict sample.last_week (Pipeline ()) 1 (sample.store sample.tabular)
    = (Return predictions, h1)
    ∧ predict sample.last_week (Pipeline ()) 1 h1 = (Return predictions, h2)
    ∧ h2 !! 1%positive = h1 !! 1%positive.
Proof.
  exact (pipeline_predict_repeatable sample.last_week (sample.store sample.tabular) 1
           sample.tabular _ _ _ _ _ _ ()
           eq_refl eq_refl eq_refl eq_refl eq_refl eq_refl eq_refl).
Defined.

Lemma hyper_cell_logs_the_printed_mae_witness :
  ∃ mae h1 h2 example,
    search_evaluation sample.last_week (Pipeline ()) 1 [5; 9]%Q
      (sample.store sample.tabular) = (Return mae, h1)
    ∧ hyper_cell sample.last_week (Pipeline ()) 1 [5; 9]%Q [] h1
      = (Return [mkRun "LGBMRegressorHyper" (Pipeline ()) example
                   "mean_absolute_error" mae], h2).
Proof.
  destruct (hyper_cell_logs_the_printed_mae sample.last_week
              (sample.store sample.tabular) 1 sample.tabular _ _ _ _ _ _ [5; 9]%Q () []
              eq_refl eq_refl eq_refl eq_refl eq_refl eq_refl eq_refl)
    as (mae & h1 & h2 & example & Hsearch & Hcell & _).
  exists mae, h1, h2, example. split; [exact Hsearch | exact Hcell].
Defined.

Lemma pipeline_failure_keeps_the_average_witness :
  ∃ h' df',
    predict sample.last_week (Pipeline ()) 1 (sample.store sample.no_pickup_hour)
    = (Raise (KeyError "pickup_hour"), h')
    ∧ h' !! 1%positive = Some df'
    ∧ sample.no_pickup_hour !! "average_rides_last_4_weeks" = None
    ∧ is_Some (df' !! "average_rides_last_4_weeks").
Proof.
  destruct (pipeline_failure_keeps_the_average sample.last_week
              (sample.store sample.no_pickup_hour) 1 sample.no_pickup_hour
              _ _ _ _ () eq_refl eq_refl eq_refl eq_refl eq_refl eq_refl)
    as (h' & Hrun & HX).
  eexists h', _. split; [exact Hrun|]. split; [exact HX|]. split; [reflexivity|].
  rewrite lookup_insert_eq. by eexists.
Defined.

(** ** The window of the feature-pipeline notebook *)

Lemma floor_h_spec (now : Z) :
  (floor_h now ≤ now < floor_h now + datetime.NS_PER_HOUR
   ∧ floor_h now mod datetime.NS_PER_HOUR = 0)%Z.
Proof.
  unfold floor_h.
  assert (0 < datetime.NS_PER_HOUR)%Z as HH by (unfold datetime.NS_PER_HOUR; lia).
  pose proof (Z.mod_pos_bound now _ HH). split; [lia|].
  rewrite Zminus_mod, Z.mod_mod, Z.sub_diag by lia. by apply Z.mod_0_l, Z.neq_sym, Z.lt_neq.
Qed.

(** X12: whatever the clock reads, the window the notebook builds ends
    on the hour within the current hour, starts 29 days earlier at the
    same hour of the day, and passes the guard of [fetch_batch_raw_data]:
    the notebook's own call returns a table, sorted by station and
    pickup time. *)
Theorem notebook_fetch_returns (fromisoformat : string → option Z)
    (load_and_process_taxi_data : Z → list Z → list Ride) (now : Z) :
  let fetch_data_from := (fetch_window now).1 in
  let fetch_data_to := (fetch_window now).2 in
  (fetch_data_to ≤ now < fetch_data_to + datetime.NS_PER_HOUR)%Z
  ∧ (fetch_data_to mod datetime.NS_PER_HOUR = 0)%Z
  ∧ datetime.hour fetch_data_from = datetime.hour fetch_data_to
  ∧ (fetch_data_to - fetch_data_from = 29 * datetime.NS_PER_DAY)%Z
  ∧ ∃ rides,
      fetch_batch_raw_data fromisoformat load_and_process_taxi_data
        (Datetime fetch_data_from) (Datetime fetch_data_to) = inr rides
      ∧ Sorted ride_le rides.
Proof.
  cbv zeta. unfold fetch_window. cbn [fst snd].
  pose proof (floor_h_spec now) as [Hnow Hmod].
  assert (0 < datetime.NS_PER_HOUR)%Z as HH by (unfold datetime.NS_PER_HOUR; lia).
  split; [exact Hnow|]. split; [exact Hmod|]. split; [|split].
  - unfold datetime.hour, datetime.timedelta_days, datetime.NS_PER_DAY.
    replace (floor_h now - 29 * (24 * datetime.NS_PER_HOUR))%Z
      with (floor_h now + (-29 * 24) * datetime.NS_PER_HOUR)%Z by lia.
    rewrite Z.div_add by lia.
    replace (-29 * 24)%Z with ((-29) * 24)%Z by lia.
    by rewrite Z.mod_add.
  - unfold datetime.timedelta_days. lia.
  - rewrite (fetch_value fromisoformat load_and_process_taxi_data
               (Datetime (floor_h now - datetime.timedelta_days 29))
               (Datetime (floor_h now))
               (floor_h now - datetime.timedelta_days 29) (floor_h now) eq_refl eq_refl).
    + eexists. split; [reflexivity|]. apply sort_values_Sorted.
    + unfold datetime.timedelta_days, datetime.NS_PER_DAY. lia.
Qed.
